(** * Function-endpoint resolution of the stable-diffusion control plane

    A shallow embedding of the Go package [module] (the function manager
    [FuncManager]) and of [config.GetFlexMode], followed by the properties
    of the endpoint resolver that the design document states.

    The manager talks to three outside parties: the persistent store
    ([datastore.Datastore]), the function-compute backend (two client
    generations, FC 2.0 and FC 3.0) and the clock.  The store and the
    backend are interfaces in the source; here they are records of
    operations over an abstract state, so every theorem holds for every
    deterministic store and backend.  A Go panic is an outcome of its own. *)

From Stdlib Require Import ZArith String List Lia.
From stdpp Require Import gmap strings list fin_maps pretty.

Open Scope string_scope.
Open Scope Z_scope.

(** ** Go values *)

(** [error]: only the message is observed ([err.Error()]). *)
Record error := errors_New { Error : string }.

(** A call that returns [(T, error)]. *)
Inductive result (A : Type) :=
| Ok (a : A)
| Err (e : error).
Arguments Ok {A} a.
Arguments Err {A} e.

(** [interface{}] cells of a datastore row: strings and numbers. *)
Inductive value :=
| VString (s : string)
| VInt (z : Z).

(** [map[string]interface{}] *)
Abbreviation row := (gmap string value).

(** [map[string]*string]; [None] at the use sites stands for the nil map. *)
Abbreviation env := (gmap string string).

(** ** package config *)

Module config.

Inductive FlexMode := SingleFunc | MultiFunc.

#[global] Instance FlexMode_eq_dec : EqDecision FlexMode.
Proof. solve_decision. Defined.

Definition MODEL_REFRESH_SIGNAL := "MODEL_REFRESH_SIGNAL".
Definition MODEL_SD := "SD_MODEL".
Definition SD_START_PARAMS := "EXTRA_ARGS".
Definition OTS_ENDPOINT := "OTS_ENDPOINT".
Definition OTS_INSTANCE := "OTS_INSTANCE".
Definition OSS_ENDPOINT := "OSS_ENDPOINT".
Definition OSS_BUCKET := "OSS_BUCKET".
Definition REMOTE := "remote".
Definition TRIGGER_TYPE := "http".
Definition TRIGGER_NAME := "defaultTrigger".
Definition HTTP_GET := "GET".
Definition HTTP_POST := "POST".
Definition HTTP_PUT := "PUT".
Definition AUTH_TYPE := "anonymous".

(** The fields of [ConfigGlobal] that the function manager reads.
    [float32] is the type of the CPU share, which is only passed on. *)
Record Config {float32 : Type} := {
  ServiceName : string;
  ServerName : string;
  FlexModeStr : string;
  AccountId : string;
  CAPort : Z;
  CPU : float32;
  Timeout : Z;
  InstanceType : string;
  InstanceConcurrency : Z;
  MemorySize : Z;
  DiskSize : Z;
  GpuMemorySize : Z;
  Image : string;
  ExtraArgs : string;
  OtsInstanceName : string;
  OtsEndpoint : string;
  OssMode : string;
  OssEndpoint : string;
  Bucket : string
}.
Arguments Config : clear implicits.

(** [func (c *Config) GetFlexMode() FlexMode] *)
Definition GetFlexMode {float32} (c : Config float32) : FlexMode :=
  if decide (FlexModeStr c = "singleFunc") then SingleFunc else MultiFunc.

End config.

Section Wire.

(** Types of the SDK that the manager only passes on. *)
Context {float32 VPCConfig NASConfig OSSMountConfig : Type}.

(** ** Requests and responses of the function-compute clients *)

(** [FuncResource]; [res_Env = None] is the nil map. *)
Record FuncResource := {
  res_Image : string;
  res_CPU : float32;
  res_GpuMemorySize : Z;
  res_InstanceType : string;
  res_MemorySize : Z;
  res_Timeout : Z;
  res_Env : option env
}.

(** [fc.CustomContainerConfig] as [getCreateFuncRequest] fills it. *)
Record CustomContainerConfig := {
  cc_AccelerationType : string;
  cc_Image : string;
  cc_WebServerMode : bool
}.

(** [fc.CreateFunctionRequest] *)
Record CreateFunctionRequest := {
  cf_FunctionName : string;
  cf_CaPort : Z;
  cf_Cpu : float32;
  cf_Timeout : Z;
  cf_InstanceType : string;
  cf_Runtime : string;
  cf_InstanceConcurrency : Z;
  cf_MemorySize : Z;
  cf_DiskSize : Z;
  cf_Handler : string;
  cf_GpuMemorySize : Z;
  cf_EnvironmentVariables : env;
  cf_CustomContainerConfig : CustomContainerConfig
}.

(** [fc3.CustomContainerConfig] and [fc3.GPUConfig] *)
Record Fc3CustomContainerConfig := {
  cc3_AccelerationType : string;
  cc3_Image : string;
  cc3_Port : Z
}.

Record GPUConfig := {
  gpu_GpuMemorySize : Z;
  gpu_GpuType : string
}.

(** [fc3.CreateFunctionInput].  The last four fields are the pointers
    copied from the reference function ([None] is nil). *)
Record CreateFunctionInput := {
  ci_FunctionName : string;
  ci_Cpu : float32;
  ci_Timeout : Z;
  ci_Runtime : string;
  ci_InstanceConcurrency : Z;
  ci_MemorySize : Z;
  ci_DiskSize : Z;
  ci_EnvironmentVariables : env;
  ci_Handler : string;
  ci_CustomContainerConfig : Fc3CustomContainerConfig;
  ci_GpuConfig : GPUConfig;
  ci_Role : option string;
  ci_VpcConfig : option VPCConfig;
  ci_NasConfig : option NASConfig;
  ci_OssMountConfig : option OSSMountConfig
}.

(** The trigger configuration before [json.Marshal]. *)
Record TriggerConfig := {
  tc_authType : string;
  tc_methods : list string
}.

(** [fc.CreateTriggerRequest] / [fc3.CreateTriggerInput] *)
Record CreateTriggerRequest := {
  tr_TriggerName : string;
  tr_TriggerType : string;
  tr_TriggerConfig : TriggerConfig
}.

(** [fc.UpdateFunctionRequest] / [fc3.UpdateFunctionInput]: the fields
    that the manager sets; a field left unset is [None].  For FC 3.0
    [uf_GpuMemorySize] and [uf_InstanceType] are the members of
    [GpuConfig], and [uf_Image] the member of [CustomContainerConfig].
    [uf_EnvironmentVariables] is the map that was passed ([None] when
    the nil map was passed). *)
Record UpdateFunctionRequest := {
  uf_Runtime : string;
  uf_GpuMemorySize : option Z;
  uf_InstanceType : option string;
  uf_MemorySize : option Z;
  uf_Cpu : option float32;
  uf_Timeout : option Z;
  uf_Image : option string;
  uf_EnvironmentVariables : option env
}.

(** Body of [fc.GetFunctionResponse].  Each field is the pointer that
    [GetFuncResource] dereferences ([None] when that pointer, or the
    struct holding it, is nil); [gf_EnvironmentVariables] is a map. *)
Record GetFunctionResponse := {
  gf_Image : option string;
  gf_Cpu : option float32;
  gf_MemorySize : option Z;
  gf_GpuMemorySize : option Z;
  gf_Timeout : option Z;
  gf_InstanceType : option string;
  gf_EnvironmentVariables : option env
}.

(** Body of [fc3.GetFunctionResponse], with the four inheritable
    members. *)
Record Fc3GetFunctionResponse := {
  gf3_Image : option string;
  gf3_Cpu : option float32;
  gf3_MemorySize : option Z;
  gf3_GpuMemorySize : option Z;
  gf3_Timeout : option Z;
  gf3_GpuType : option string;
  gf3_EnvironmentVariables : option env;
  gf3_Role : option string;
  gf3_VpcConfig : option VPCConfig;
  gf3_NasConfig : option NASConfig;
  gf3_OssMountConfig : option OSSMountConfig
}.

(** What [GetFcFunc] wraps in its [interface{}] result. *)
Inductive FuncBody :=
| FcBody (r : GetFunctionResponse)
| Fc3Body (r : Fc3GetFunctionResponse).

(** ** The collaborators *)

(** Column names of package [datastore] that the manager uses. *)
Record Columns := {
  KModelServiceKey : string;
  KModelServiceSdModel : string;
  KModelServiceFunctionName : string;
  KModelServiceEndPoint : string;
  KModelServiceCreateTime : string;
  KModelServiceLastModifyTime : string;
  KModelServerImage : string
}.

(** [datastore.Datastore], the three methods the manager calls, over a
    store state [S].  [ds_ListAll] returns its map together with its
    error, as the manager drops the error and ranges over the map. *)
Record Datastore {S : Type} := {
  ds_Get : string -> list string -> S -> result row * S;
  ds_Put : string -> row -> S -> option error * S;
  ds_ListAll : list string -> S -> (gmap string row * option error) * S
}.
#[global] Arguments Datastore : clear implicits.

(** The two clients, [*fc.Client] and [*fc3.Client], over a backend
    state [B].  A trigger response carries the pointer [UrlInternet]
    ([None] when it, or a struct on the way to it, is nil). *)
Record Backend {B : Type} := {
  fc_CreateFunctionWithOptions :
    string -> CreateFunctionRequest -> string -> B -> option error * B;
  fc_CreateTrigger :
    string -> string -> CreateTriggerRequest -> B -> result (option string) * B;
  fc_GetFunction :
    string -> string -> B -> result GetFunctionResponse * B;
  fc_UpdateFunction :
    string -> string -> UpdateFunctionRequest -> B -> option error * B;
  fc3_CreateFunction :
    CreateFunctionInput -> B -> option error * B;
  fc3_CreateTrigger :
    string -> CreateTriggerRequest -> B -> result (option string) * B;
  fc3_GetFunction :
    string -> B -> result Fc3GetFunctionResponse * B;
  fc3_UpdateFunction :
    string -> UpdateFunctionRequest -> B -> option error * B
}.
#[global] Arguments Backend : clear implicits.

End Wire.


(** ** Loading the configuration (config.go) *)

Module configfile.

(** Names of environment variables and values, from the constants of
    package config. *)
Definition ACCOUNT_ID := "FC_ACCOUNT_ID".
Definition ACCESS_KEY_ID := "ALIBABA_CLOUD_ACCESS_KEY_ID".
Definition ACCESS_KEY_SECRET := "ALIBABA_CLOUD_ACCESS_KEY_SECRET".
Definition ACCESS_KET_TOKEN := "ALIBABA_CLOUD_SECURITY_TOKEN".
Definition REGION := "FC_REGION".
Definition SERVICE_NAME := "FC_SERVICE_NAME".
Definition OTS_ENDPOINT := "OTS_ENDPOINT".
Definition OTS_INSTANCE := "OTS_INSTANCE".
Definition OSS_ENDPOINT := "OSS_ENDPOINT".
Definition OSS_BUCKET := "OSS_BUCKET".
Definition OSS_PATH := "OSS_PATH".
Definition OSS_MODE := "OSS_MODE".
Definition LOGINSWITCH := "LOGIN_SWITCH".
Definition USER_LOCAL_MODEL := "USE_LOCAL_MODEL".
Definition SD_IMAGE := "SD_IMAGE".
Definition FLEX_MODE := "FLEX_MODE".
Definition SERVER_NAME := "SERVER_NAME".
Definition DOWNSTREAM := "DOWNSTREAM".
Definition GPU_MEMORY_SIZE := "GPU_MEMORY_SIZE".
Definition COLD_START_CONCURRENCY := "COLD_START_CONCURRENCY".
Definition MODEL_COLD_START_SERIAL := "MODEL_COLD_START_SERIAL".
Definition LOG_REMOTE_SERVICE := "LOG_REMOTE_SERVICE".
Definition ENABLE_COLLECT := "ENABLE_COLLECT".
Definition DISABLE_HF_CHECK := "DISABLE_HF_CHECK".

Definition DefaultExtraArgs := "--api".
Definition DefaultSessionExpire : Z := 3600.
Definition DefaultLoginSwitch := "off".
Definition DefaultUseLocalModel := "yes".
Definition DefaultFlexMode := "multiFunc".
Definition DefaultOssMode := config.REMOTE.
Definition DefaultLogService :=
  "http://server-ai-backend-agwwspzdwb.cn-hangzhou.devsapp.net".
Definition ColdStartConcurrency : Z := 10.
Definition ModelColdStartSerial : bool := false.
Definition PROXY := "proxy".
Definition AGENT := "agent".
Definition CONTROL := "control".

(** [int32(n)] of an [int]: the low 32 bits, read as signed. *)
Definition int32 (n : Z) : Z := (n + 2 ^ 31) mod 2 ^ 32 - 2 ^ 31.

(** The byte ":". *)
Definition colon : Ascii.ascii := Ascii.ascii_of_nat 58.

(** [strings.Split(s, ":")]: the pieces of [s] between the colons, one
    more than there are colons. *)
Fixpoint Split_colon (s : string) : list string :=
  match s with
  | EmptyString => [""]
  | String c rest =>
      if Ascii.eqb c colon then "" :: Split_colon rest
      else match Split_colon rest with
           | piece :: pieces => String c piece :: pieces
           | [] => [String c ""]
           end
  end.

(** The number of colons in a string. *)
Fixpoint colons (s : string) : nat :=
  match s with
  | EmptyString => 0
  | String c rest =>
      if Ascii.eqb c colon then Datatypes.S (colons rest) else colons rest
  end.

Section Config.

Context {float32 : Type}.

(** [ConfigYaml] *)
Record ConfigYaml := {
  OtsEndpoint : string;
  OtsTimeToAlive : Z;
  OtsInstanceName : string;
  OtsMaxVersion : Z;
  OssEndpoint : string;
  Bucket : string;
  OssPath : string;
  OssMode : string;
  DbSqlite : string;
  ListenInterval : Z;
  Image : string;
  CAPort : Z;
  Timeout : Z;
  CPU : float32;
  GpuMemorySize : Z;
  ExtraArgs : string;
  DiskSize : Z;
  MemorySize : Z;
  InstanceConcurrency : Z;
  InstanceType : string;
  SessionExpire : Z;
  LoginSwitch : string;
  ProgressImageOutputSwitch : string;
  SdUrlPrefix : string;
  SdPath : string;
  SdShell : string;
  UseLocalModels : string;
  FlexMode : string;
  LogRemoteService : string;
  EnableCollect : string;
  DisableHealthCheck : string;
  ServerName : string;
  Downstream : string
}.

(** [ConfigEnv] *)
Record ConfigEnv := {
  AccountId : string;
  AccessKeyId : string;
  AccessKeySecret : string;
  AccessKeyToken : string;
  Region : string;
  ServiceName : string;
  ColdStartConcurrencyOf : Z;
  ModelColdStartSerialOf : bool
}.

(** [Config]: the two embedded structs. *)
Record Config := {
  yaml : ConfigYaml;
  env : ConfigEnv
}.

(** [os.Getenv]: the environment, the empty string for a variable that
    is not set. *)
Variable Getenv : string -> string.

(** [strconv.Atoi] and [strconv.ParseBool] *)
Variable Atoi : string -> result Z.
Variable ParseBool : string -> result bool.

Definition SendLogToRemote (c : Config) : bool :=
  bool_decide (LogRemoteService (yaml c) <> "")
  && (bool_decide (EnableCollect (yaml c) = "true")
      || bool_decide (EnableCollect (yaml c) = "1")).

Definition GetFlexMode (c : Config) : config.FlexMode :=
  if decide (FlexMode (yaml c) = "singleFunc") then config.SingleFunc
  else config.MultiFunc.

Definition IsServerTypeMatch (c : Config) (name : string) : bool :=
  if decide (GetFlexMode c = config.SingleFunc) then true
  else bool_decide (ServerName (yaml c) = name).

Definition UseLocalModel (c : Config) : bool :=
  bool_decide (UseLocalModels (yaml c) = "yes").

Definition EnableLogin (c : Config) : bool :=
  bool_decide (LoginSwitch (yaml c) = "on").

Definition GetSDPort (c : Config) : string :=
  let items := Split_colon (SdUrlPrefix (yaml c)) in
  if decide (length items = 3%nat) then default "" (items !! 2%nat) else "".

Definition EnableProgressImg (c : Config) : bool :=
  bool_decide (ProgressImageOutputSwitch (yaml c) = "on").

Definition GetDisableHealthCheck (c : Config) : bool :=
  bool_decide (DisableHealthCheck (yaml c) = "true")
  || bool_decide (DisableHealthCheck (yaml c) = "1").

(** [v] unless it is empty, then [old]: the pattern
    [if v != "" { c.X = v }]. *)
Definition cover (v old : string) : string :=
  if decide (v <> "") then v else old.

(** [updateFromEnv].  Every member is assigned from the environment and
    its own old value only, so the assignments are given member by
    member. *)
Definition updateFromEnv (c : Config) : Config :=
  let y := yaml c in
  let otsEndpoint := Getenv OTS_ENDPOINT in
  let otsInstanceName := Getenv OTS_INSTANCE in
  let ots := bool_decide (otsEndpoint <> "") && bool_decide (otsInstanceName <> "") in
  let ossEndpoint := Getenv OSS_ENDPOINT in
  let bucket := Getenv OSS_BUCKET in
  let oss := bool_decide (ossEndpoint <> "") && bool_decide (bucket <> "") in
  let gpuMemorySize := Getenv GPU_MEMORY_SIZE in
  let coldStartConcurrency := Getenv COLD_START_CONCURRENCY in
  let modelColdStartSerial := Getenv MODEL_COLD_START_SERIAL in
  {| yaml :=
       {| OtsEndpoint := if ots then otsEndpoint else OtsEndpoint y;
          OtsTimeToAlive := OtsTimeToAlive y;
          OtsInstanceName := if ots then otsInstanceName else OtsInstanceName y;
          OtsMaxVersion := OtsMaxVersion y;
          OssEndpoint := if oss then ossEndpoint else OssEndpoint y;
          Bucket := if oss then bucket else Bucket y;
          OssPath := cover (Getenv OSS_PATH) (OssPath y);
          OssMode := cover (Getenv OSS_MODE) (OssMode y);
          DbSqlite := DbSqlite y;
          ListenInterval := ListenInterval y;
          Image := cover (Getenv SD_IMAGE) (Image y);
          CAPort := CAPort y;
          Timeout := Timeout y;
          CPU := CPU y;
          GpuMemorySize :=
            if decide (gpuMemorySize <> "") then
              match Atoi gpuMemorySize with
              | Ok size => int32 size
              | Err _ => GpuMemorySize y
              end
            else GpuMemorySize y;
          ExtraArgs := ExtraArgs y;
          DiskSize := DiskSize y;
          MemorySize := MemorySize y;
          InstanceConcurrency := InstanceConcurrency y;
          InstanceType := InstanceType y;
          SessionExpire := SessionExpire y;
          LoginSwitch := cover (Getenv LOGINSWITCH) (LoginSwitch y);
          ProgressImageOutputSwitch := ProgressImageOutputSwitch y;
          SdUrlPrefix := SdUrlPrefix y;
          SdPath := SdPath y;
          SdShell := SdShell y;
          UseLocalModels := cover (Getenv USER_LOCAL_MODEL) (UseLocalModels y);
          FlexMode := cover (Getenv FLEX_MODE) (FlexMode y);
          LogRemoteService := cover (Getenv LOG_REMOTE_SERVICE) (LogRemoteService y);
          EnableCollect := cover (Getenv ENABLE_COLLECT) (EnableCollect y);
          DisableHealthCheck := cover (Getenv DISABLE_HF_CHECK) (DisableHealthCheck y);
          ServerName := cover (Getenv SERVER_NAME) (ServerName y);
          Downstream := cover (Getenv DOWNSTREAM) (Downstream y) |};
     env :=
       {| AccountId := AccountId (env c);
          AccessKeyId := AccessKeyId (env c);
          AccessKeySecret := AccessKeySecret (env c);
          AccessKeyToken := AccessKeyToken (env c);
          Region := Region (env c);
          ServiceName := ServiceName (env c);
          ColdStartConcurrencyOf :=
            if decide (coldStartConcurrency <> "") then
              match Atoi coldStartConcurrency with
              | Ok concurrency => int32 concurrency
              | Err _ => ColdStartConcurrency
              end
            else ColdStartConcurrency;
          ModelColdStartSerialOf :=
            if decide (modelColdStartSerial <> "") then
              match ParseBool modelColdStartSerial with
              | Ok serial => serial
              | Err _ => ModelColdStartSerial
              end
            else ModelColdStartSerial |} |}.

(** [old] unless it is the zero value, then [d]: the pattern
    [if c.X == "" { c.X = d }]. *)
Definition default_string (old d : string) : string :=
  if decide (old = "") then d else old.

Definition default_int (old d : Z) : Z :=
  if decide (old = 0) then d else old.

(** [setDefaults], member by member as [updateFromEnv]. *)
Definition setDefaults (c : Config) : Config :=
  let y := yaml c in
  {| yaml :=
       {| OtsEndpoint := OtsEndpoint y;
          OtsTimeToAlive := default_int (OtsTimeToAlive y) (-1);
          OtsInstanceName := OtsInstanceName y;
          OtsMaxVersion := OtsMaxVersion y;
          OssEndpoint := OssEndpoint y;
          Bucket := Bucket y;
          OssPath := OssPath y;
          OssMode := default_string (OssMode y) DefaultOssMode;
          DbSqlite := DbSqlite y;
          ListenInterval := default_int (ListenInterval y) 1;
          Image := Image y;
          CAPort := CAPort y;
          Timeout := Timeout y;
          CPU := CPU y;
          GpuMemorySize := GpuMemorySize y;
          ExtraArgs := default_string (ExtraArgs y) DefaultExtraArgs;
          DiskSize := DiskSize y;
          MemorySize := MemorySize y;
          InstanceConcurrency := InstanceConcurrency y;
          InstanceType := InstanceType y;
          SessionExpire := default_int (SessionExpire y) DefaultSessionExpire;
          LoginSwitch := default_string (LoginSwitch y) DefaultLoginSwitch;
          ProgressImageOutputSwitch := ProgressImageOutputSwitch y;
          SdUrlPrefix := SdUrlPrefix y;
          SdPath := SdPath y;
          SdShell := SdShell y;
          UseLocalModels := default_string (UseLocalModels y) DefaultUseLocalModel;
          FlexMode := default_string (FlexMode y) DefaultFlexMode;
          LogRemoteService := default_string (LogRemoteService y) DefaultLogService;
          EnableCollect := EnableCollect y;
          DisableHealthCheck := DisableHealthCheck y;
          ServerName := ServerName y;
          Downstream := Downstream y |};
     env := env c |}.

(** [InitConfig].  [loaded] is the file as read and unmarshalled, or the
    error of either step; the first component of the result is
    [ConfigGlobal] after the call, [global] being its value before. *)
Definition InitConfig (loaded : result ConfigYaml) (global : option Config)
  : option Config * option error :=
  match loaded with
  | Err err => (global, Some err)
  | Ok configYaml =>
      let configEnv :=
        {| AccountId := Getenv ACCOUNT_ID;
           AccessKeyId := Getenv ACCESS_KEY_ID;
           AccessKeySecret := Getenv ACCESS_KEY_SECRET;
           AccessKeyToken := Getenv ACCESS_KET_TOKEN;
           Region := Getenv REGION;
           ServiceName := Getenv SERVICE_NAME;
           ColdStartConcurrencyOf := 0;
           ModelColdStartSerialOf := false |} in
      if existsb (fun val => bool_decide (val = ""))
           [AccountId configEnv; AccessKeyId configEnv;
            AccessKeySecret configEnv; Region configEnv;
            ServiceName configEnv]
      then (global,
            Some (errors_New
                    ("env not set ACCOUNT_ID || ACCESS_KEY_Id || "
                     ++ "ACCESS_KEY_SECRET || REGION || SERVICE_NAME, please check")))
      else
        let c := updateFromEnv
                   (setDefaults {| yaml := configYaml; env := configEnv |}) in
        if bool_decide (GetFlexMode c = config.MultiFunc)
           && bool_decide (ServerName (yaml c) = PROXY)
           && bool_decide (Downstream (yaml c) = "")
        then (Some c, Some (errors_New "proxy need set downstream"))
        else (Some c, None)
  end.

(** What the function manager reads of the configuration. *)
Definition manager_view (c : Config) : config.Config float32 :=
  {| config.ServiceName := ServiceName (env c);
     config.ServerName := ServerName (yaml c);
     config.FlexModeStr := FlexMode (yaml c);
     config.AccountId := AccountId (env c);
     config.CAPort := CAPort (yaml c);
     config.CPU := CPU (yaml c);
     config.Timeout := Timeout (yaml c);
     config.InstanceType := InstanceType (yaml c);
     config.InstanceConcurrency := InstanceConcurrency (yaml c);
     config.MemorySize := MemorySize (yaml c);
     config.DiskSize := DiskSize (yaml c);
     config.GpuMemorySize := GpuMemorySize (yaml c);
     config.Image := Image (yaml c);
     config.ExtraArgs := ExtraArgs (yaml c);
     config.OtsInstanceName := OtsInstanceName (yaml c);
     config.OtsEndpoint := OtsEndpoint (yaml c);
     config.OssMode := OssMode (yaml c);
     config.OssEndpoint := OssEndpoint (yaml c);
     config.Bucket := Bucket (yaml c) |}.

End Config.

#[global] Arguments ConfigYaml : clear implicits.
#[global] Arguments Config : clear implicits.

End configfile.

(** ** Collaborators for the scenarios *)

(** A store that keeps its rows in a map and never fails. *)
Definition mem_store : Datastore (gmap string row) :=
  {| ds_Get key _ s := (Ok (default ∅ (s !! key)), s);
     ds_Put key data s := (None, <[key := data]> s);
     ds_ListAll _ s := ((s, None), s) |}.

(** A backend that answers by script: its state is the number of calls
    answered so far, and each answer may depend on it and on the name of
    the function. *)
Record Script := {
  on_create : nat -> option error;
  on_trigger : nat -> result (option string);
  on_get : nat -> string -> result (@GetFunctionResponse unit);
  on_get3 : nat -> string -> result (@Fc3GetFunctionResponse unit unit unit unit);
  on_update : nat -> string -> option error
}.

Definition scripted (sc : Script) : @Backend unit unit unit unit nat :=
  {| fc_CreateFunctionWithOptions _ _ _ n := (on_create sc n, Datatypes.S n);
     fc_CreateTrigger _ _ _ n := (on_trigger sc n, Datatypes.S n);
     fc_GetFunction _ f n := (on_get sc n f, Datatypes.S n);
     fc_UpdateFunction _ f _ n := (on_update sc n f, Datatypes.S n);
     fc3_CreateFunction _ n := (on_create sc n, Datatypes.S n);
     fc3_CreateTrigger _ _ n := (on_trigger sc n, Datatypes.S n);
     fc3_GetFunction f n := (on_get3 sc n f, Datatypes.S n);
     fc3_UpdateFunction f _ n := (on_update sc n f, Datatypes.S n) |}.

Definition scenario_columns : Columns :=
  {| KModelServiceKey := "key";
     KModelServiceSdModel := "sdModel";
     KModelServiceFunctionName := "functionName";
     KModelServiceEndPoint := "endpoint";
     KModelServiceCreateTime := "createTime";
     KModelServiceLastModifyTime := "modifyTime";
     KModelServerImage := "image" |}.

(** A configuration with the given service name and flex mode, the
    other members at their defaults. *)
Definition scenario_config (serviceName flexMode : string) : config.Config unit :=
  {| config.ServiceName := serviceName;
     config.ServerName := "control";
     config.FlexModeStr := flexMode;
     config.AccountId := "account";
     config.CAPort := 7861;
     config.CPU := tt;
     config.Timeout := 600;
     config.InstanceType := "fc.gpu.tesla.1";
     config.InstanceConcurrency := 1;
     config.MemorySize := 32768;
     config.DiskSize := 512;
     config.GpuMemorySize := 16384;
     config.Image := "image";
     config.ExtraArgs := "--api";
     config.OtsInstanceName := "instance";
     config.OtsEndpoint := "ots";
     config.OssMode := config.REMOTE;
     config.OssEndpoint := "oss";
     config.Bucket := "bucket" |}.

(** A row as [putFunc] writes it, without the time stamps. *)
Definition scenario_row (key sdModel endpoint : string) : row :=
  <[KModelServiceEndPoint scenario_columns := VString endpoint]>
  (<[KModelServiceSdModel scenario_columns := VString sdModel]>
  (<[KModelServiceKey scenario_columns := VString key]> ∅)).

(** Every provisioning attempt is rejected. *)
Definition rejecting : Script :=
  {| on_create _ := Some (errors_New "quota exceeded");
     on_trigger _ := Err (errors_New "no such function");
     on_get _ _ := Err (errors_New "no such function");
     on_get3 _ _ := Err (errors_New "no such function");
     on_update _ _ := Some (errors_New "no such function") |}.

(** Every call is accepted; each trigger gets the same address. *)
Definition healthy : Script :=
  {| on_create _ := None;
     on_trigger _ := Ok (Some "http://sd.example");
     on_get _ _ := Err (errors_New "no such function");
     on_get3 _ _ := Err (errors_New "no such function");
     on_update _ _ := None |}.

(** The first call of all is rejected, the later ones are accepted. *)
Definition flaky : Script :=
  {| on_create n := if decide (n = 0%nat) then Some (errors_New "throttled")
                    else None;
     on_trigger _ := Ok (Some "http://sd.example");
     on_get _ _ := Err (errors_New "no such function");
     on_get3 _ _ := Err (errors_New "no such function");
     on_update _ _ := None |}.

(** A store with a binding for "a" and a row for "m" whose endpoint is
    the empty string. *)
Definition two_rows : gmap string row :=
  <["m" := scenario_row "m" "m" ""]>
  (<["a" := scenario_row "a" "a" "http://a.example"]> ∅).

(** What the FC 3.0 backend answers for the reference function. *)
Definition reference_function : @Fc3GetFunctionResponse unit unit unit unit :=
  {| gf3_Image := Some "image";
     gf3_Cpu := Some tt;
     gf3_MemorySize := Some 32768;
     gf3_GpuMemorySize := Some 16384;
     gf3_Timeout := Some 600;
     gf3_GpuType := Some "fc.gpu.tesla.1";
     gf3_EnvironmentVariables := Some ∅;
     gf3_Role := Some "role";
     gf3_VpcConfig := Some tt;
     gf3_NasConfig := Some tt;
     gf3_OssMountConfig := None |}.

(** The first call of all, the read of the reference function, fails;
    every later call is accepted. *)
Definition reference_recovers : Script :=
  {| on_create _ := None;
     on_trigger _ := Ok (Some "http://sd.example");
     on_get _ _ := Err (errors_New "no such function");
     on_get3 n _ := if decide (n = 0%nat) then Err (errors_New "timeout")
                    else Ok reference_function;
     on_update _ _ := None |}.

(** Every call is accepted, and the trigger comes back with an empty
    address. *)
Definition urlless : Script :=
  {| on_create _ := None;
     on_trigger _ := Ok (Some "");
     on_get _ _ := Err (errors_New "no such function");
     on_get3 _ _ := Err (errors_New "no such function");
     on_update _ _ := None |}.

(** A resource specification, and a batch that applies it to the keys
    "A" and "B". *)
Definition scenario_resource : @FuncResource unit :=
  {| res_Image := "image";
     res_CPU := tt;
     res_GpuMemorySize := 16384;
     res_InstanceType := "fc.gpu.tesla.1";
     res_MemorySize := 32768;
     res_Timeout := 600;
     res_Env := Some ∅ |}.

Definition batch : gmap string (option (@FuncResource unit)) :=
  <["B" := Some scenario_resource]> (<["A" := Some scenario_resource]> ∅).

(** The update of the function of "B" is rejected, every other call is
    accepted. *)
Definition rejects_B : Script :=
  {| on_create _ := None;
     on_trigger _ := Ok (Some "http://sd.example");
     on_get _ _ := Err (errors_New "no such function");
     on_get3 _ _ := Err (errors_New "no such function");
     on_update _ f := if decide (f = "sd_B") then Some (errors_New "invalid spec")
                      else None |}.

(** What the FC 2.0 backend answers for every function. *)
Definition scenario_function : @GetFunctionResponse unit :=
  {| gf_Image := Some "image";
     gf_Cpu := Some tt;
     gf_MemorySize := Some 32768;
     gf_GpuMemorySize := Some 16384;
     gf_Timeout := Some 600;
     gf_InstanceType := Some "fc.gpu.tesla.1";
     gf_EnvironmentVariables := Some ∅ |}.

(** Every function exists and every update is accepted. *)
Definition serving : Script :=
  {| on_create _ := None;
     on_trigger _ := Ok (Some "http://sd.example");
     on_get _ _ := Ok scenario_function;
     on_get3 _ _ := Ok reference_function;
     on_update _ _ := None |}.

(** A store that holds the binding of "modelX". *)
Definition stored_modelX : gmap string row :=
  <["modelX" := scenario_row "modelX" "modelX" "http://stored.example"]> ∅.

(** What the FC 3.0 backend answers for a function without GPU. *)
Definition cpu_function : @Fc3GetFunctionResponse unit unit unit unit :=
  {| gf3_Image := Some "image";
     gf3_Cpu := Some tt;
     gf3_MemorySize := Some 32768;
     gf3_GpuMemorySize := None;
     gf3_Timeout := Some 600;
     gf3_GpuType := None;
     gf3_EnvironmentVariables := Some ∅;
     gf3_Role := Some "role";
     gf3_VpcConfig := None;
     gf3_NasConfig := None;
     gf3_OssMountConfig := None |}.

(** Every function exists and has no GPU. *)
Definition gpuless : Script :=
  {| on_create _ := None;
     on_trigger _ := Ok (Some "http://sd.example");
     on_get _ _ := Ok scenario_function;
     on_get3 _ _ := Ok cpu_function;
     on_update _ _ := None |}.

(** A batch whose entry for "B" is the nil pointer. *)
Definition batch_with_nil : gmap string (option (@FuncResource unit)) :=
  <["B" := None]> (<["A" := Some scenario_resource]> ∅).

(** A configuration file that sets the address of the inference engine
    and nothing else. *)
Definition scenario_yaml : configfile.ConfigYaml unit :=
  {| configfile.OtsEndpoint := "";
     configfile.OtsTimeToAlive := 0;
     configfile.OtsInstanceName := "";
     configfile.OtsMaxVersion := 0;
     configfile.OssEndpoint := "";
     configfile.Bucket := "";
     configfile.OssPath := "";
     configfile.OssMode := "";
     configfile.DbSqlite := "";
     configfile.ListenInterval := 0;
     configfile.Image := "";
     configfile.CAPort := 0;
     configfile.Timeout := 0;
     configfile.CPU := tt;
     configfile.GpuMemorySize := 0;
     configfile.ExtraArgs := "";
     configfile.DiskSize := 0;
     configfile.MemorySize := 0;
     configfile.InstanceConcurrency := 0;
     configfile.InstanceType := "";
     configfile.SessionExpire := 0;
     configfile.LoginSwitch := "";
     configfile.ProgressImageOutputSwitch := "";
     configfile.SdUrlPrefix := "http://127.0.0.1:7860";
     configfile.SdPath := "";
     configfile.SdShell := "";
     configfile.UseLocalModels := "";
     configfile.FlexMode := "";
     configfile.LogRemoteService := "";
     configfile.EnableCollect := "";
     configfile.DisableHealthCheck := "";
     configfile.ServerName := "";
     configfile.Downstream := "" |}.

(** An environment that sets the five required variables and no other. *)
Definition scenario_environment (name : string) : string :=
  if decide (name = configfile.ACCOUNT_ID) then "account"
  else if decide (name = configfile.ACCESS_KEY_ID) then "key"
  else if decide (name = configfile.ACCESS_KEY_SECRET) then "secret"
  else if decide (name = configfile.REGION) then "cn-hangzhou"
  else if decide (name = configfile.SERVICE_NAME) then "service"
  else "".

(** ** The manager and its surroundings *)

Section FuncManager.

Context {float32 VPCConfig NASConfig OSSMountConfig S B : Type}.

Local Abbreviation FuncResource := (@FuncResource float32).
Local Abbreviation UpdateFunctionRequest := (@UpdateFunctionRequest float32).
Local Abbreviation CreateFunctionRequest := (@CreateFunctionRequest float32).
Local Abbreviation CreateFunctionInput :=
  (@CreateFunctionInput float32 VPCConfig NASConfig OSSMountConfig).
Local Abbreviation FuncBody :=
  (@FuncBody float32 VPCConfig NASConfig OSSMountConfig).

Variable cols : Columns.
Variable store : Datastore S.
Variable client : @Backend float32 VPCConfig NASConfig OSSMountConfig B.

(** [config.ConfigGlobal] *)
Variable ConfigGlobal : config.Config float32.

(** [utils.Hash] *)
Variable Hash : string -> string.

(** [fmt.Sprintf("%d", n)] *)
Variable Sprintf_d : Z -> string.

(** The order in which a [for ... range] over a map visits it: Go leaves
    it unspecified, so it is a parameter; every use below assumes only
    that each entry is visited once ([range_spec]). *)
Variable range : forall V : Type, gmap string V -> list (string * V).

Definition range_spec : Prop :=
  forall (V : Type) (m : gmap string V), range V m ≡ₚ map_to_list m.

(** What the manager does to the outside, in order. *)
Inductive event :=
| EvStoreGet (key : string)
| EvStorePut (key : string) (data : row)
| EvStoreListAll
| EvGetFunction (functionName : string)
| EvCreateFunction (functionName : string)
| EvCreateTrigger (functionName : string)
| EvUpdateFunction (functionName : string) (req : UpdateFunctionRequest)
| EvSleep (ms : Z)
| EvLogInfo (msg : string).

(** [FuncManager] ([endpoints], [funcStore], the clients,
    [lastInvokeEndpoint]) together with the clock in milliseconds and the
    events so far, latest first.  The lock is not a field: the embedding
    follows one caller, for whom every acquisition succeeds at once. *)
Record World := {
  endpoints : gmap string (list string);
  lastInvokeEndpoint : string;
  funcStore : S;
  fcClient : B;
  clock : Z;
  trace : list event
}.

(** A computation returns or panics. *)
Inductive outcome (A : Type) :=
| Ret (a : A) (w : World)
| Panic (msg : string) (w : World).
#[global] Arguments Ret {A} a w.
#[global] Arguments Panic {A} msg w.

Definition M (A : Type) : Type := World -> outcome A.

Definition ret {A} (a : A) : M A := fun w => Ret a w.

Definition bind {A C} (m : M A) (k : A -> M C) : M C :=
  fun w => match m w with
           | Ret a w' => k a w'
           | Panic msg w' => Panic msg w'
           end.

Definition panic {A} (msg : string) : M A := fun w => Panic msg w.

Definition gets {A} (f : World -> A) : M A := fun w => Ret (f w) w.

Definition modify (f : World -> World) : M unit := fun w => Ret tt (f w).

Notation "'do' x <- m ; k" := (bind m (fun x => k))
  (at level 10, x name, m at level 100, k at level 200,
   format "'[v' 'do'  x  <-  m ; '/' k ']'").
Notation "m ;; k" := (bind m (fun _ => k))
  (at level 100, k at level 200, right associativity).

(** The updates of one field. *)
Definition with_trace (e : event) (w : World) : World :=
  {| endpoints := endpoints w;
     lastInvokeEndpoint := lastInvokeEndpoint w;
     funcStore := funcStore w;
     fcClient := fcClient w;
     clock := clock w;
     trace := e :: trace w |}.

Definition with_endpoint (key : string) (val : list string) (w : World) : World :=
  {| endpoints := <[key := val]> (endpoints w);
     lastInvokeEndpoint := lastInvokeEndpoint w;
     funcStore := funcStore w;
     fcClient := fcClient w;
     clock := clock w;
     trace := trace w |}.

Definition with_lastInvokeEndpoint (endpoint : string) (w : World) : World :=
  {| endpoints := endpoints w;
     lastInvokeEndpoint := endpoint;
     funcStore := funcStore w;
     fcClient := fcClient w;
     clock := clock w;
     trace := trace w |}.

Definition with_funcStore (s : S) (w : World) : World :=
  {| endpoints := endpoints w;
     lastInvokeEndpoint := lastInvokeEndpoint w;
     funcStore := s;
     fcClient := fcClient w;
     clock := clock w;
     trace := trace w |}.

Definition with_fcClient (b : B) (w : World) : World :=
  {| endpoints := endpoints w;
     lastInvokeEndpoint := lastInvokeEndpoint w;
     funcStore := funcStore w;
     fcClient := b;
     clock := clock w;
     trace := trace w |}.

Definition with_clock (now : Z) (w : World) : World :=
  {| endpoints := endpoints w;
     lastInvokeEndpoint := lastInvokeEndpoint w;
     funcStore := funcStore w;
     fcClient := fcClient w;
     clock := now;
     trace := trace w |}.

Definition emit (e : event) : M unit := modify (with_trace e).

Definition set_endpoint (key : string) (val : list string) : M unit :=
  modify (with_endpoint key val).

Definition set_lastInvokeEndpoint (endpoint : string) : M unit :=
  modify (with_lastInvokeEndpoint endpoint).

(** A call on the store: run it on [funcStore] and keep the new state. *)
Definition on_store {A} (op : S -> A * S) : M A :=
  fun w => let (a, s) := op (funcStore w) in Ret a (with_funcStore s w).

(** A call on the backend. *)
Definition on_client {A} (op : B -> A * B) : M A :=
  fun w => let (a, b) := op (fcClient w) in Ret a (with_fcClient b w).

(** The world after [time.Sleep(d)], [d] in milliseconds. *)
Definition slept (ms : Z) (w : World) : World :=
  with_clock (clock w + ms) (with_trace (EvSleep ms) w).

Definition Sleep (ms : Z) : M unit := modify (slept ms).

(** [utils.TimestampS()] *)
Definition TimestampS : M Z := gets (fun w => clock w / 1000).

(** [logrus.Info(msg)] *)
Definition logrus_Info (msg : string) : M unit := emit (EvLogInfo msg).

(** [x.(string)] on a cell read from a row; a missing column reads as
    the nil interface. *)
Definition assert_string (x : option value) : M string :=
  match x with
  | Some (VString s) => ret s
  | _ => panic "interface conversion: interface {} is not string"
  end.

(** [*p] *)
Definition deref {A} (p : option A) : M A :=
  match p with
  | Some a => ret a
  | None => panic "invalid memory address or nil pointer dereference"
  end.


(** ** The function manager (package [module]) *)

(** [RETRY_INTERVALMS], in milliseconds. *)
Definition RETRY_INTERVALMS : Z := 10.

Definition isFc3 : bool :=
  bool_decide (config.ServiceName ConfigGlobal = "").

(** [GetFunctionName]: [fmt.Sprintf("sd_%s", utils.Hash(key))] *)
Definition GetFunctionName (key : string) : string := "sd_" ++ Hash key.

Definition getEnv (sdModel : string) : M env :=
  do ts <- TimestampS;
  let env0 : env :=
    <[config.OTS_ENDPOINT := config.OtsEndpoint ConfigGlobal]>
    (<[config.OTS_INSTANCE := config.OtsInstanceName ConfigGlobal]>
    (<[config.MODEL_REFRESH_SIGNAL := Sprintf_d ts]>
    (<[config.MODEL_SD := sdModel]>
    (<[config.SD_START_PARAMS := config.ExtraArgs ConfigGlobal]> ∅)))) in
  ret (if decide (config.OssMode ConfigGlobal = config.REMOTE)
       then <[config.OSS_BUCKET := config.Bucket ConfigGlobal]>
            (<[config.OSS_ENDPOINT := config.OssEndpoint ConfigGlobal]> env0)
       else env0).

(** [getEndpointFromCache]: [val[0]] panics on an empty slice. *)
Definition getEndpointFromCache (key : string) : M string :=
  do cache <- gets endpoints;
  match cache !! key with
  | Some val =>
      match val !! 0%nat with
      | Some endpoint => ret endpoint
      | None => panic "index out of range [0] with length 0"
      end
  | None => ret ""
  end.

Definition getEndpointFromDb (key : string) : M string :=
  emit (EvStoreGet key) ;;
  do r <- on_store (ds_Get store key
                      [KModelServiceSdModel cols; KModelServiceEndPoint cols]);
  match r with
  | Ok data =>
      if bool_decide (0 < size data)%nat then
        do endpoint <- assert_string (data !! KModelServiceEndPoint cols);
        do sdModel <- assert_string (data !! KModelServiceSdModel cols);
        set_endpoint key [endpoint; sdModel] ;;
        ret endpoint
      else ret ""
  | Err _ => ret ""
  end.

(** The row that [putFunc] writes. *)
Definition binding (key functionName sdModel endpoint : string)
    (created modified : Z) : row :=
  <[KModelServiceLastModifyTime cols := VString (Sprintf_d modified)]>
  (<[KModelServiceCreateTime cols := VString (Sprintf_d created)]>
  (<[KModelServiceEndPoint cols := VString endpoint]>
  (<[KModelServiceFunctionName cols := VString functionName]>
  (<[KModelServiceSdModel cols := VString sdModel]>
  (<[KModelServiceKey cols := VString key]> ∅))))).

Definition putFunc (key functionName sdModel endpoint : string) : M unit :=
  do created <- TimestampS;
  do modified <- TimestampS;
  let data := binding key functionName sdModel endpoint created modified in
  emit (EvStorePut key data) ;;
  do _ <- on_store (ds_Put store key data);
  ret tt.

(** *** FC 2.0 *)

Definition getCreateFuncRequest (functionName : string) (env0 : env)
  : CreateFunctionRequest :=
  {| cf_FunctionName := functionName;
     cf_CaPort := config.CAPort ConfigGlobal;
     cf_Cpu := config.CPU ConfigGlobal;
     cf_Timeout := config.Timeout ConfigGlobal;
     cf_InstanceType := config.InstanceType ConfigGlobal;
     cf_Runtime := "custom-container";
     cf_InstanceConcurrency := config.InstanceConcurrency ConfigGlobal;
     cf_MemorySize := config.MemorySize ConfigGlobal;
     cf_DiskSize := config.DiskSize ConfigGlobal;
     cf_Handler := "index.handler";
     cf_GpuMemorySize := config.GpuMemorySize ConfigGlobal;
     cf_EnvironmentVariables := env0;
     cf_CustomContainerConfig :=
       {| cc_AccelerationType := "Default";
          cc_Image := config.Image ConfigGlobal;
          cc_WebServerMode := true |} |}.

(** [getHttpTrigger] and [getHttpTriggerFc3] build the same request. *)
Definition getHttpTrigger : CreateTriggerRequest :=
  {| tr_TriggerName := config.TRIGGER_NAME;
     tr_TriggerType := config.TRIGGER_TYPE;
     tr_TriggerConfig :=
       {| tc_authType := config.AUTH_TYPE;
          tc_methods := [config.HTTP_GET; config.HTTP_POST; config.HTTP_PUT] |} |}.

Definition createFCFunction (serviceName functionName : string) (env0 : env)
  : M (string * option error) :=
  let createRequest := getCreateFuncRequest functionName env0 in
  let header := config.AccountId ConfigGlobal in
  emit (EvCreateFunction functionName) ;;
  do err <- on_client (fc_CreateFunctionWithOptions client serviceName
                         createRequest header);
  match err with
  | Some e => ret ("", Some e)
  | None =>
      let httpTriggerRequest := getHttpTrigger in
      emit (EvCreateTrigger functionName) ;;
      do resp <- on_client (fc_CreateTrigger client serviceName functionName
                              httpTriggerRequest);
      match resp with
      | Err e => ret ("", Some e)
      | Ok UrlInternet =>
          do endpoint <- deref UrlInternet;
          ret (endpoint, None)
      end
  end.

(** *** Both generations *)

Definition GetFcFunc (functionName : string) : M (option FuncBody) :=
  emit (EvGetFunction functionName) ;;
  if isFc3 then
    do r <- on_client (fc3_GetFunction client functionName);
    match r with
    | Ok resp => ret (Some (Fc3Body resp))
    | Err _ => ret None
    end
  else
    let serviceName := config.ServiceName ConfigGlobal in
    do r <- on_client (fc_GetFunction client serviceName functionName);
    match r with
    | Ok resp => ret (Some (FcBody resp))
    | Err _ => ret None
    end.

Definition GetFuncResource (functionName : string) : M (option FuncResource) :=
  do funcBody <- GetFcFunc functionName;
  match funcBody with
  | Some (FcBody info) =>
      do image <- deref (gf_Image info);
      do cpu <- deref (gf_Cpu info);
      do memorySize <- deref (gf_MemorySize info);
      do gpuMemorySize <- deref (gf_GpuMemorySize info);
      do timeout <- deref (gf_Timeout info);
      do instanceType <- deref (gf_InstanceType info);
      ret (Some {| res_Image := image;
                   res_CPU := cpu;
                   res_GpuMemorySize := gpuMemorySize;
                   res_InstanceType := instanceType;
                   res_MemorySize := memorySize;
                   res_Timeout := timeout;
                   res_Env := gf_EnvironmentVariables info |})
  | Some (Fc3Body info) =>
      do image <- deref (gf3_Image info);
      do cpu <- deref (gf3_Cpu info);
      do memorySize <- deref (gf3_MemorySize info);
      do gpuMemorySize <- deref (gf3_GpuMemorySize info);
      do timeout <- deref (gf3_Timeout info);
      do instanceType <- deref (gf3_GpuType info);
      ret (Some {| res_Image := image;
                   res_CPU := cpu;
                   res_GpuMemorySize := gpuMemorySize;
                   res_InstanceType := instanceType;
                   res_MemorySize := memorySize;
                   res_Timeout := timeout;
                   res_Env := gf3_EnvironmentVariables info |})
  | None => ret None
  end.

(** *** FC 3.0 *)

(** [getCreateFuncRequestFc3]: [None] is the nil request. *)
Definition getCreateFuncRequestFc3 (functionName : string) (env0 : env)
  : M (option CreateFunctionInput) :=
  do function <- GetFcFunc (config.ServerName ConfigGlobal);
  match function with
  | None => ret None
  | Some (FcBody _) =>
      panic "interface conversion: interface {} is not *fc3.GetFunctionResponse"
  | Some (Fc3Body curFunction) =>
      ret (Some
        {| ci_FunctionName := functionName;
           ci_Cpu := config.CPU ConfigGlobal;
           ci_Timeout := config.Timeout ConfigGlobal;
           ci_Runtime := "custom-container";
           ci_InstanceConcurrency := config.InstanceConcurrency ConfigGlobal;
           ci_MemorySize := config.MemorySize ConfigGlobal;
           ci_DiskSize := config.DiskSize ConfigGlobal;
           ci_EnvironmentVariables := env0;
           ci_Handler := "index.handler";
           ci_CustomContainerConfig :=
             {| cc3_AccelerationType := "Default";
                cc3_Image := config.Image ConfigGlobal;
                cc3_Port := config.CAPort ConfigGlobal |};
           ci_GpuConfig :=
             {| gpu_GpuMemorySize := config.GpuMemorySize ConfigGlobal;
                gpu_GpuType := config.InstanceType ConfigGlobal |};
           ci_Role := gf3_Role curFunction;
           ci_VpcConfig := gf3_VpcConfig curFunction;
           ci_NasConfig := gf3_NasConfig curFunction;
           ci_OssMountConfig := gf3_OssMountConfig curFunction |})
  end.

Definition createFc3Function (functionName : string) (env0 : env)
  : M (string * option error) :=
  do createRequest <- getCreateFuncRequestFc3 functionName env0;
  match createRequest with
  | None => ret ("", Some (errors_New "get createFunctionRequest error"))
  | Some request =>
      emit (EvCreateFunction functionName) ;;
      do err <- on_client (fc3_CreateFunction client request);
      match err with
      | Some e => ret ("", Some e)
      | None =>
          let httpTriggerRequest := getHttpTrigger in
          emit (EvCreateTrigger functionName) ;;
          do resp <- on_client (fc3_CreateTrigger client functionName
                                  httpTriggerRequest);
          match resp with
          | Err e => ret ("", Some e)
          | Ok UrlInternet =>
              do endpoint <- deref UrlInternet;
              ret (endpoint, None)
          end
      end
  end.

(** *** Provisioning *)

(** [err.Error()] on an [error] that may be nil. *)
Definition err_Error (err : option error) : M string :=
  match err with
  | Some e => ret (Error e)
  | None => panic "invalid memory address or nil pointer dereference"
  end.

Definition is_nil {A} (x : option A) : bool :=
  match x with
  | None => true
  | Some _ => false
  end.

Definition createFunc (key sdModel : string) (env0 : env) : M string :=
  let functionName := GetFunctionName key in
  do r <- (if isFc3 then createFc3Function functionName env0
           else let serviceName := config.ServiceName ConfigGlobal in
                createFCFunction serviceName functionName env0);
  let (endpoint, err) := r in
  if is_nil err && bool_decide (endpoint <> "") then
    set_endpoint key [endpoint; sdModel] ;;
    putFunc key functionName sdModel endpoint ;;
    ret endpoint
  else
    (do msg <- err_Error err; logrus_Info msg) ;;
    ret "".

(** *** Start-up *)

Fixpoint loadFunc_loop (funcAll : list (string * row)) : M unit :=
  match funcAll with
  | [] => ret tt
  | (_, data) :: rest =>
      do key <- assert_string (data !! KModelServiceKey cols);
      do endpoint <- assert_string (data !! KModelServiceEndPoint cols);
      do last <- gets lastInvokeEndpoint;
      (if decide (last = "") then set_lastInvokeEndpoint endpoint else ret tt) ;;
      do sdModel <- assert_string (data !! KModelServiceSdModel cols);
      set_endpoint key [endpoint; sdModel] ;;
      loadFunc_loop rest
  end.

Definition loadFunc : M unit :=
  emit EvStoreListAll ;;
  do r <- on_store (ds_ListAll store
                      [KModelServiceKey cols; KModelServiceEndPoint cols;
                       KModelServiceSdModel cols; KModelServerImage cols]);
  let funcAll := fst r in
  loadFunc_loop (range row funcAll).

(** The manager that [InitFuncManager] allocates: an empty cache and no
    last endpoint. *)
Definition new_FuncManager (funcStore0 : S) (fcClient0 : B) (now : Z) : World :=
  {| endpoints := ∅;
     lastInvokeEndpoint := "";
     funcStore := funcStore0;
     fcClient := fcClient0;
     clock := now;
     trace := [] |}.

(** [InitFuncManager]; [newClientErr] is the error of [fc.NewClient] or
    [fc3.NewClient]. *)
Definition InitFuncManager (newClientErr : option error) : M (option error) :=
  match newClientErr with
  | Some err => ret (Some err)
  | None => loadFunc ;; ret None
  end.

(** *** Resolution *)

(** [GetLastInvokeEndpoint]; [None] is the nil pointer. *)
Definition GetLastInvokeEndpoint (sdModel : option string) : M string :=
  match sdModel with
  | None => gets lastInvokeEndpoint
  | Some m =>
      if decide (m = "") then gets lastInvokeEndpoint
      else
        do endpoint <- getEndpointFromCache m;
        if decide (endpoint <> "") then
          set_lastInvokeEndpoint endpoint ;;
          ret endpoint
        else gets lastInvokeEndpoint
  end.

(** The lookup key that [GetEndpoint] computes first. *)
Definition endpointKey (sdModel : string) : string :=
  if bool_decide (config.GetFlexMode ConfigGlobal = config.MultiFunc)
     && bool_decide (sdModel <> "")
  then sdModel
  else "default".

(** The loop [for reTry > 0] of [GetEndpoint]. *)
Fixpoint GetEndpoint_loop (reTry : nat) (key sdModel : string)
  : M (string * option error) :=
  match reTry with
  | O => ret ("", Some (errors_New "not get sd endpoint"))
  | Datatypes.S reTry' =>
      do endpoint <- getEndpointFromCache key;
      if decide (endpoint <> "") then
        set_lastInvokeEndpoint endpoint ;;
        ret (endpoint, None)
      else
        do endpoint <- getEndpointFromDb key;
        if decide (endpoint <> "") then
          set_lastInvokeEndpoint endpoint ;;
          ret (endpoint, None)
        else
          do env0 <- getEnv sdModel;
          do endpoint <- createFunc key sdModel env0;
          if decide (endpoint <> "") then
            set_lastInvokeEndpoint endpoint ;;
            ret (endpoint, None)
          else
            Sleep RETRY_INTERVALMS ;;
            GetEndpoint_loop reTry' key sdModel
  end.

Definition GetEndpoint (sdModel : string) : M (string * option error) :=
  let key := endpointKey sdModel in
  let reTry := 2%nat in
  GetEndpoint_loop reTry key sdModel.

(** *** Updates *)

Definition UpdateFunctionEnv (key : string) : M (option error) :=
  let functionName := GetFunctionName key in
  do res <- GetFuncResource functionName;
  match res with
  | None => ret None
  | Some res =>
      do ts <- TimestampS;
      match res_Env res with
      | None => panic "assignment to entry in nil map"
      | Some env0 =>
          let env1 := <[config.MODEL_REFRESH_SIGNAL := Sprintf_d ts]> env0 in
          let req :=
            {| uf_Runtime := "custom-container";
               uf_GpuMemorySize := Some (res_GpuMemorySize res);
               uf_InstanceType :=
                 if isFc3 then Some (res_InstanceType res) else None;
               uf_MemorySize := None;
               uf_Cpu := None;
               uf_Timeout := None;
               uf_Image := None;
               uf_EnvironmentVariables := Some env1 |} in
          emit (EvUpdateFunction functionName req) ;;
          do err <- on_client
                      (if isFc3 then fc3_UpdateFunction client functionName req
                       else fc_UpdateFunction client
                              (config.ServiceName ConfigGlobal) functionName req);
          match err with
          | Some e => logrus_Info (Error e) ;; ret (Some e)
          | None => ret None
          end
      end
  end.

Fixpoint UpdateAllFunctionEnv_loop (keys : list (string * list string))
  : M (option error) :=
  match keys with
  | [] => ret None
  | (key, _) :: rest =>
      do err <- UpdateFunctionEnv key;
      match err with
      | Some e => ret (Some e)
      | None => UpdateAllFunctionEnv_loop rest
      end
  end.

Definition UpdateAllFunctionEnv : M (option error) :=
  loadFunc ;;
  do cache <- gets endpoints;
  UpdateAllFunctionEnv_loop (range (list string) cache).

(** The request that [UpdateFunctionResource] sends for one resource:
    both generations set the same members. *)
Definition resourceRequest (resource : FuncResource) : UpdateFunctionRequest :=
  {| uf_Runtime := "custom-container";
     uf_GpuMemorySize := Some (res_GpuMemorySize resource);
     uf_InstanceType := Some (res_InstanceType resource);
     uf_MemorySize := Some (res_MemorySize resource);
     uf_Cpu := Some (res_CPU resource);
     uf_Timeout := Some (res_Timeout resource);
     uf_Image := Some (res_Image resource);
     uf_EnvironmentVariables := res_Env resource |}.

(** The loop of [UpdateFunctionResource] with its three slices; a
    resource is a pointer ([None] is nil). *)
Fixpoint UpdateFunctionResource_loop
    (resources : list (string * option FuncResource))
    (success fail errs : list string)
  : M (list string * list string * list string) :=
  match resources with
  | [] => ret (success, fail, errs)
  | (key, resource) :: rest =>
      let functionName := GetFunctionName key in
      do resource <- deref resource;
      let req := resourceRequest resource in
      emit (EvUpdateFunction functionName req) ;;
      do err <- on_client
                  (if isFc3 then fc3_UpdateFunction client functionName req
                   else fc_UpdateFunction client
                          (config.ServiceName ConfigGlobal) functionName req);
      match err with
      | Some e =>
          UpdateFunctionResource_loop rest
            success (fail ++ [functionName]) (errs ++ [Error e])
      | None =>
          UpdateFunctionResource_loop rest (success ++ [key]) fail errs
      end
  end.

Definition UpdateFunctionResource (resources : gmap string (option FuncResource))
  : M (list string * list string * list string) :=
  UpdateFunctionResource_loop (range (option FuncResource) resources) [] [] [].

(** * Vocabulary of the properties *)

(** The value that [getEnv] returns at [w]. *)
Definition envAt (sdModel : string) (w : World) : env :=
  match getEnv sdModel w with
  | Ret env0 _ => env0
  | Panic _ _ => ∅
  end.

(** Every cached value is a slice of two strings. *)
Definition cache_wf (w : World) : Prop :=
  forall key val, endpoints w !! key = Some val -> length val = 2%nat.

(** [m] keeps [P]: from a world with [P] it ends, returning or
    panicking, in a world with [P]. *)
Definition keeps {A} (P : World -> Prop) (m : M A) : Prop :=
  forall w, P w ->
    match m w with
    | Ret _ w' => P w'
    | Panic _ w' => P w'
    end.

(** A property of worlds that looks at the cache only. *)
Definition cache_only (P : World -> Prop) : Prop :=
  forall w w', endpoints w' = endpoints w -> P w -> P w'.

(** The number of create-function calls in a trace. *)
Definition is_provision (e : event) : bool :=
  match e with
  | EvCreateFunction _ => true
  | _ => false
  end.

Definition provisions (tr : list event) : nat :=
  length (List.filter is_provision tr).

(** The first non-empty string of a list, or the empty string. *)
Fixpoint first_nonempty (l : list string) : string :=
  match l with
  | [] => ""
  | s :: rest => if decide (s = "") then first_nonempty rest else s
  end.

(** The endpoint column of a row reads as the string [endpoint]. *)
Definition reads_endpoint (entry : string * row) (endpoint : string) : Prop :=
  snd entry !! KModelServiceEndPoint cols = Some (VString endpoint).

(** The number of get-function calls for [functionName] in a trace. *)
Definition function_reads (functionName : string) (tr : list event) : nat :=
  length (List.filter (fun e => match e with
                                | EvGetFunction f => bool_decide (f = functionName)
                                | _ => false
                                end) tr).

(** [UpdateFunctionEnv] run for the keys one after the other, each run
    returning no error. *)
Inductive all_updated : list string -> World -> World -> Prop :=
| all_updated_nil w : all_updated [] w w
| all_updated_cons key keys w w1 w' :
    UpdateFunctionEnv key w = Ret None w1 ->
    all_updated keys w1 w' ->
    all_updated (key :: keys) w w'.

(** The runs stop at the first key whose run returns the error [e]. *)
Definition first_failure (keys : list string) (w : World) (e : error)
    (w' : World) : Prop :=
  exists before key rest w1,
    keys = (before ++ key :: rest)%list
    /\ all_updated before w w1
    /\ UpdateFunctionEnv key w1 = Ret (Some e) w'.

(** The update call of the generation in use. *)
Definition updateCall (functionName : string) (req : UpdateFunctionRequest)
  : B -> option error * B :=
  if isFc3 then fc3_UpdateFunction client functionName req
  else fc_UpdateFunction client (config.ServiceName ConfigGlobal)
         functionName req.

(** The answers of the backend when it is sent the update of every entry,
    one after the other, whatever it answered before. *)
Fixpoint sendUpdates (entries : list (string * FuncResource)) (b : B)
  : list (option error) * B :=
  match entries with
  | [] => ([], b)
  | (key, resource) :: rest =>
      let (answer, b1) :=
        updateCall (GetFunctionName key) (resourceRequest resource) b in
      let (answers, b2) := sendUpdates rest b1 in
      (answer :: answers, b2)
  end.

(** The keys whose update was accepted. *)
Fixpoint succeeded (entries : list (string * FuncResource))
    (answers : list (option error)) : list string :=
  match entries, answers with
  | (key, _) :: entries', None :: answers' => key :: succeeded entries' answers'
  | _ :: entries', Some _ :: answers' => succeeded entries' answers'
  | _, _ => []
  end.

(** The function names of the keys whose update was rejected, each with
    the message of its rejection. *)
Fixpoint rejected (entries : list (string * FuncResource))
    (answers : list (option error)) : list (string * string) :=
  match entries, answers with
  | (key, _) :: entries', Some e :: answers' =>
      (GetFunctionName key, Error e) :: rejected entries' answers'
  | _ :: entries', None :: answers' => rejected entries' answers'
  | _, _ => []
  end.

(** The event of the update of an entry. *)
Definition update_event (entry : string * FuncResource) : event :=
  EvUpdateFunction (GetFunctionName (fst entry)) (resourceRequest (snd entry)).

(** An entry of the map whose resource pointer is not nil. *)
Definition pointer (entry : string * FuncResource)
  : string * option FuncResource :=
  (fst entry, Some (snd entry)).

(** The world in which a computation ends, returning or panicking. *)
Definition final {A} (o : outcome A) : World :=
  match o with
  | Ret _ w => w
  | Panic _ w => w
  end.

(** The number of rows sent to the store in a trace. *)
Definition is_put (e : event) : bool :=
  match e with
  | EvStorePut _ _ => true
  | _ => false
  end.

Definition store_puts (tr : list event) : nat :=
  length (List.filter is_put tr).

(** The number of sleeps in a trace. *)
Definition is_sleep (e : event) : bool :=
  match e with
  | EvSleep _ => true
  | _ => false
  end.

Definition sleeps (tr : list event) : nat :=
  length (List.filter is_sleep tr).

(** The key column of a row reads as the string [key]. *)
Definition reads_key (data : row) (key : string) : Prop :=
  data !! KModelServiceKey cols = Some (VString key).

(** The row [data] is the binding of [key] to [endpoint] for [sdModel]. *)
Definition reads_binding (data : row) (key endpoint sdModel : string) : Prop :=
  data !! KModelServiceKey cols = Some (VString key)
  /\ data !! KModelServiceEndPoint cols = Some (VString endpoint)
  /\ data !! KModelServiceSdModel cols = Some (VString sdModel).

(** The map that [loadFunc] gets from the store at [w]. *)
Definition listing (w : World) : gmap string row :=
  fst (fst (ds_ListAll store
              [KModelServiceKey cols; KModelServiceEndPoint cols;
               KModelServiceSdModel cols; KModelServerImage cols]
              (funcStore w))).

(** * Properties *)

(** ** Running a computation *)

Lemma bind_Ret {A C} (m : M A) (k : A -> M C) w a w' :
  m w = Ret a w' -> bind m k w = k a w'.
Proof. intros H. unfold bind. now rewrite H. Qed.

Lemma bind_Panic {A C} (m : M A) (k : A -> M C) w msg w' :
  m w = Panic msg w' -> bind m k w = Panic msg w'.
Proof. intros H. unfold bind. now rewrite H. Qed.

Lemma bind_inv_Ret {A C} (m : M A) (k : A -> M C) w c w' :
  bind m k w = Ret c w' ->
  exists a w1, m w = Ret a w1 /\ k a w1 = Ret c w'.
Proof.
  unfold bind. destruct (m w) as [a w1|msg w1]; [eauto | discriminate].
Qed.

Lemma getEnv_run sdModel w :
  exists env0, getEnv sdModel w = Ret env0 w.
Proof. unfold getEnv, bind, TimestampS, gets, ret. eauto. Qed.

Lemma getEnv_envAt sdModel w : getEnv sdModel w = Ret (envAt sdModel w) w.
Proof.
  unfold envAt. destruct (getEnv_run sdModel w) as [env0 H]. now rewrite H.
Qed.

(** A cache hit serves the call and only records the endpoint. *)
Lemma GetEndpoint_loop_hit reTry key sdModel w endpoint rest :
  endpoints w !! key = Some (endpoint :: rest) ->
  endpoint <> "" ->
  GetEndpoint_loop (Datatypes.S reTry) key sdModel w
  = Ret (endpoint, None) (with_lastInvokeEndpoint endpoint w).
Proof.
  intros Hk Hne. simpl. unfold bind at 1.
  unfold getEndpointFromCache, bind, gets. rewrite Hk. simpl.
  destruct (decide (endpoint <> "")); [reflexivity | contradiction].
Qed.

(** One attempt that misses three times sleeps and leaves the rest of
    the budget to the next attempt. *)
Lemma GetEndpoint_loop_miss reTry key sdModel w w1 w2 w3 :
  getEndpointFromCache key w = Ret "" w1 ->
  getEndpointFromDb key w1 = Ret "" w2 ->
  createFunc key sdModel (envAt sdModel w2) w2 = Ret "" w3 ->
  GetEndpoint_loop (Datatypes.S reTry) key sdModel w
  = GetEndpoint_loop reTry key sdModel (slept RETRY_INTERVALMS w3).
Proof.
  intros Hc Hd Hp. simpl.
  rewrite (bind_Ret _ _ _ _ _ Hc).
  destruct (decide ("" <> "")) as [Hne|_]; [now contradiction Hne |].
  rewrite (bind_Ret _ _ _ _ _ Hd).
  destruct (decide ("" <> "")) as [Hne|_]; [now contradiction Hne |].
  rewrite (bind_Ret _ _ _ _ _ (getEnv_envAt sdModel w2)).
  rewrite (bind_Ret _ _ _ _ _ Hp).
  destruct (decide ("" <> "")) as [Hne|_]; [now contradiction Hne |].
  reflexivity.
Qed.

(** ** Invariants *)

Lemma keeps_ret {A} P (a : A) : keeps P (ret a).
Proof. intros w H. exact H. Qed.

Lemma keeps_panic {A} P msg : keeps P (@panic A msg).
Proof. intros w H. exact H. Qed.

Lemma keeps_gets {A} P (f : World -> A) : keeps P (gets f).
Proof. intros w H. exact H. Qed.

Lemma keeps_bind {A C} P (m : M A) (k : A -> M C) :
  keeps P m -> (forall a, keeps P (k a)) -> keeps P (bind m k).
Proof.
  intros Hm Hk w H. unfold bind. specialize (Hm w H).
  destruct (m w) as [a w1|msg w1]; [apply Hk, Hm | exact Hm].
Qed.

Lemma keeps_modify P (f : World -> World) :
  (forall w, P w -> P (f w)) -> keeps P (modify f).
Proof. intros Hf w H. apply Hf, H. Qed.

Section CacheOnly.

Variable P : World -> Prop.
Hypothesis HP : cache_only P.

Lemma keeps_emit e : keeps P (emit e).
Proof. apply keeps_modify. intros w. now apply HP. Qed.

Lemma keeps_set_lastInvokeEndpoint e : keeps P (set_lastInvokeEndpoint e).
Proof. apply keeps_modify. intros w. now apply HP. Qed.

Lemma keeps_Sleep ms : keeps P (Sleep ms).
Proof. apply keeps_modify. intros w. now apply HP. Qed.

Lemma keeps_on_store {A} (op : S -> A * S) : keeps P (on_store op).
Proof.
  intros w H. unfold on_store. destruct (op (funcStore w)). revert H. now apply HP.
Qed.

Lemma keeps_on_client {A} (op : B -> A * B) : keeps P (on_client op).
Proof.
  intros w H. unfold on_client. destruct (op (fcClient w)). revert H. now apply HP.
Qed.

Lemma keeps_assert_string x : keeps P (assert_string x).
Proof.
  destruct x as [[s|z]|]; [apply keeps_ret | apply keeps_panic | apply keeps_panic].
Qed.

Lemma keeps_deref {A} (p : option A) : keeps P (deref p).
Proof. destruct p; [apply keeps_ret | apply keeps_panic]. Qed.

Lemma keeps_err_Error err : keeps P (err_Error err).
Proof. destruct err; [apply keeps_ret | apply keeps_panic]. Qed.

End CacheOnly.

(** Goals [keeps P m] for an [m] built from the primitives, given the
    step for [set_endpoint] in the context or the hint base. *)
Create HintDb keeps discriminated.

Ltac keeps_step :=
  first
    [ apply keeps_ret | apply keeps_panic | apply keeps_gets
    | apply keeps_emit; assumption
    | apply keeps_set_lastInvokeEndpoint; assumption
    | apply keeps_Sleep; assumption
    | apply keeps_on_store; assumption
    | apply keeps_on_client; assumption
    | apply keeps_assert_string
    | apply keeps_deref
    | apply keeps_err_Error
    | solve [auto with keeps]
    | apply keeps_bind; [| intros ?]
    | match goal with
      | |- keeps _ (match ?x with _ => _ end) => destruct x
      | |- keeps _ (let (_, _) := ?x in _) => destruct x
      end ].

Ltac keeps_auto := repeat keeps_step.

(** Every operation keeps a property of the cache that survives the
    writes of a pair. *)
Section KeptByAll.

Variable P : World -> Prop.
Hypothesis HP : cache_only P.
Hypothesis Hset : forall key endpoint sdModel,
  keeps P (set_endpoint key [endpoint; sdModel]).

Lemma keeps_getEndpointFromCache key : keeps P (getEndpointFromCache key).
Proof. unfold getEndpointFromCache. keeps_auto. Qed.

Lemma keeps_getEndpointFromDb key : keeps P (getEndpointFromDb key).
Proof. unfold getEndpointFromDb. keeps_auto. Qed.

Lemma keeps_getEnv sdModel : keeps P (getEnv sdModel).
Proof. unfold getEnv, TimestampS. keeps_auto. Qed.

Lemma keeps_putFunc key functionName sdModel endpoint :
  keeps P (putFunc key functionName sdModel endpoint).
Proof. unfold putFunc, TimestampS. keeps_auto. Qed.

Lemma keeps_GetFcFunc functionName : keeps P (GetFcFunc functionName).
Proof. unfold GetFcFunc. keeps_auto. Qed.

Lemma keeps_createFCFunction serviceName functionName env0 :
  keeps P (createFCFunction serviceName functionName env0).
Proof. unfold createFCFunction. keeps_auto. Qed.

Lemma keeps_createFc3Function functionName env0 :
  keeps P (createFc3Function functionName env0).
Proof.
  unfold createFc3Function, getCreateFuncRequestFc3.
  pose proof keeps_GetFcFunc. keeps_auto.
Qed.

Lemma keeps_createFunc key sdModel env0 : keeps P (createFunc key sdModel env0).
Proof.
  unfold createFunc, logrus_Info.
  pose proof keeps_createFCFunction. pose proof keeps_createFc3Function.
  pose proof keeps_putFunc. keeps_auto.
Qed.

Lemma keeps_loadFunc_loop funcAll : keeps P (loadFunc_loop funcAll).
Proof.
  induction funcAll as [|[k data] rest IH]; simpl; keeps_auto.
Qed.

Lemma keeps_loadFunc : keeps P loadFunc.
Proof. unfold loadFunc. pose proof keeps_loadFunc_loop. keeps_auto. Qed.

Lemma keeps_InitFuncManager newClientErr : keeps P (InitFuncManager newClientErr).
Proof. unfold InitFuncManager. pose proof keeps_loadFunc. keeps_auto. Qed.

Lemma keeps_GetLastInvokeEndpoint sdModel : keeps P (GetLastInvokeEndpoint sdModel).
Proof.
  unfold GetLastInvokeEndpoint. pose proof keeps_getEndpointFromCache. keeps_auto.
Qed.

Lemma keeps_GetEndpoint_loop reTry key sdModel :
  keeps P (GetEndpoint_loop reTry key sdModel).
Proof.
  pose proof keeps_getEndpointFromCache. pose proof keeps_getEndpointFromDb.
  pose proof keeps_getEnv. pose proof keeps_createFunc.
  induction reTry as [|reTry IH]; simpl; keeps_auto.
Qed.

Lemma keeps_GetEndpoint sdModel : keeps P (GetEndpoint sdModel).
Proof. apply keeps_GetEndpoint_loop. Qed.

Lemma keeps_GetFuncResource functionName : keeps P (GetFuncResource functionName).
Proof. unfold GetFuncResource. pose proof keeps_GetFcFunc. keeps_auto. Qed.

Lemma keeps_UpdateFunctionEnv key : keeps P (UpdateFunctionEnv key).
Proof.
  unfold UpdateFunctionEnv, TimestampS, logrus_Info.
  pose proof keeps_GetFuncResource. keeps_auto.
Qed.

Lemma keeps_UpdateAllFunctionEnv_loop keys :
  keeps P (UpdateAllFunctionEnv_loop keys).
Proof.
  pose proof keeps_UpdateFunctionEnv.
  induction keys as [|[key val] rest IH]; simpl; keeps_auto.
Qed.

Lemma keeps_UpdateAllFunctionEnv : keeps P UpdateAllFunctionEnv.
Proof.
  unfold UpdateAllFunctionEnv.
  pose proof keeps_loadFunc. pose proof keeps_UpdateAllFunctionEnv_loop.
  keeps_auto.
Qed.

Lemma keeps_UpdateFunctionResource_loop resources success fail errs :
  keeps P (UpdateFunctionResource_loop resources success fail errs).
Proof.
  revert success fail errs.
  induction resources as [|[key resource] rest IH]; intros; simpl; keeps_auto.
Qed.

Lemma keeps_UpdateFunctionResource resources :
  keeps P (UpdateFunctionResource resources).
Proof. apply keeps_UpdateFunctionResource_loop. Qed.

End KeptByAll.

(** ** The cache holds pairs *)

Lemma cache_wf_cache_only : cache_only cache_wf.
Proof. intros w w' Heq H key val. rewrite Heq. apply H. Qed.

Lemma cache_wf_set_endpoint key endpoint sdModel :
  keeps cache_wf (set_endpoint key [endpoint; sdModel]).
Proof.
  intros w H key' val. simpl. rewrite lookup_insert.
  destruct (decide (key = key')); [intros [= <-]; reflexivity | apply H].
Qed.

Lemma cache_wf_new funcStore0 fcClient0 now :
  cache_wf (new_FuncManager funcStore0 fcClient0 now).
Proof. intros key val. simpl. now rewrite lookup_empty. Qed.

Lemma getEndpointFromCache_total key w :
  cache_wf w -> exists endpoint, getEndpointFromCache key w = Ret endpoint w.
Proof.
  intros H. unfold getEndpointFromCache, bind, gets.
  destruct (endpoints w !! key) as [val|] eqn:E; [| now exists ""].
  apply H in E. destruct val as [|endpoint rest]; [discriminate E |].
  now exists endpoint.
Qed.


(** ** What a successful step leaves behind *)

Ltac run_step H :=
  match type of H with
  | context [match ?x with _ => _ end] =>
      lazymatch x with
      | context [match _ with _ => _ end] => fail
      | _ => let E := fresh "E" in
             destruct x eqn:E; cbv beta iota zeta in H; try discriminate H
      end
  end.

Ltac run_unfold H :=
  unfold createFunc, createFc3Function, createFCFunction,
    getCreateFuncRequestFc3, GetFcFunc, GetFuncResource, putFunc,
    getEndpointFromDb, getEndpointFromCache, TimestampS,
    err_Error, logrus_Info, assert_string, deref, emit, Sleep,
    set_endpoint, set_lastInvokeEndpoint, on_client, on_store,
    modify, gets, panic, ret, bind in H;
  cbv beta iota zeta in H.

Lemma with_lastInvokeEndpoint_id w :
  with_lastInvokeEndpoint (lastInvokeEndpoint w) w = w.
Proof. now destruct w. Qed.

Lemma getEndpointFromCache_inv key w endpoint w' :
  getEndpointFromCache key w = Ret endpoint w' ->
  w' = w
  /\ (endpoint <> "" -> exists rest, endpoints w !! key = Some (endpoint :: rest)).
Proof.
  intros H. run_unfold H. repeat run_step H.
  - injection H as <- <-. split; [reflexivity | intros _].
    destruct l as [|e rest]; [discriminate E0 |].
    injection E0 as ->. now exists rest.
  - injection H as <- <-. split; [reflexivity | intros Hne; now contradiction Hne].
Qed.

Lemma getEndpointFromCache_absent key w :
  endpoints w !! key = None -> getEndpointFromCache key w = Ret "" w.
Proof. intros H. unfold getEndpointFromCache, bind, gets. now rewrite H. Qed.

Lemma getEndpointFromDb_inv key w endpoint w' :
  getEndpointFromDb key w = Ret endpoint w' ->
  endpoint <> "" ->
  exists sdModel,
    endpoints w' = <[key := [endpoint; sdModel]]> (endpoints w)
    /\ lastInvokeEndpoint w' = lastInvokeEndpoint w
    /\ clock w' = clock w
    /\ fcClient w' = fcClient w
    /\ trace w' = EvStoreGet key :: trace w.
Proof.
  intros H Hne. run_unfold H. repeat run_step H.
  all: injection H as <- <-; try (now contradiction Hne).
  eexists. simpl. repeat split; reflexivity.
Qed.

Lemma getEndpointFromDb_empty key w s1 :
  ds_Get store key [KModelServiceSdModel cols; KModelServiceEndPoint cols]
    (funcStore w) = (Ok ∅, s1) ->
  getEndpointFromDb key w
  = Ret "" (with_funcStore s1 (with_trace (EvStoreGet key) w)).
Proof.
  intros H. unfold getEndpointFromDb, bind, emit, modify, on_store.
  simpl. now rewrite H.
Qed.

Lemma createFunc_success key sdModel env0 w endpoint w' :
  createFunc key sdModel env0 w = Ret endpoint w' ->
  endpoint <> "" ->
  let functionName := GetFunctionName key in
  let data := binding key functionName sdModel endpoint
                (clock w / 1000) (clock w / 1000) in
  endpoints w' = <[key := [endpoint; sdModel]]> (endpoints w)
  /\ lastInvokeEndpoint w' = lastInvokeEndpoint w
  /\ clock w' = clock w
  /\ funcStore w' = snd (ds_Put store key data (funcStore w))
  /\ trace w'
     = EvStorePut key data :: EvCreateTrigger functionName
       :: EvCreateFunction functionName
       :: (if isFc3 then [EvGetFunction (config.ServerName ConfigGlobal)]
           else [])
       ++ trace w.
Proof.
  intros H Hne. cbv zeta. run_unfold H. repeat run_step H.
  all: injection H as <- <-; try (now contradiction Hne).
  all: simpl in *.
  all: match goal with E : ds_Put _ _ _ _ = _ |- _ => rewrite E end.
  all: now simpl.
Qed.

(** P1, first half: a call that succeeds has the endpoint under its key in
    the cache and as the last endpoint. *)
Lemma GetEndpoint_loop_success reTry key sdModel w endpoint w' :
  GetEndpoint_loop reTry key sdModel w = Ret (endpoint, None) w' ->
  endpoint <> ""
  /\ lastInvokeEndpoint w' = endpoint
  /\ exists rest, endpoints w' !! key = Some (endpoint :: rest).
Proof.
  revert w. induction reTry as [|reTry IH]; intros w H; [discriminate H |].
  simpl in H.
  apply bind_inv_Ret in H as (e1 & w1 & Hc & H).
  apply getEndpointFromCache_inv in Hc as [-> Hc].
  destruct (decide (e1 <> "")) as [Hne|_].
  { injection H as <- <-. split; [exact Hne | split; [reflexivity |]].
    simpl. now apply Hc. }
  apply bind_inv_Ret in H as (e2 & w2 & Hd & H).
  destruct (decide (e2 <> "")) as [Hne|_].
  { injection H as <- <-. split; [exact Hne | split; [reflexivity |]].
    destruct (getEndpointFromDb_inv _ _ _ _ Hd Hne) as (m & Hm & _).
    exists [m]. simpl. rewrite Hm. apply lookup_insert_eq. }
  apply bind_inv_Ret in H as (env0 & w3 & He & H).
  apply bind_inv_Ret in H as (e3 & w4 & Hp & H).
  destruct (decide (e3 <> "")) as [Hne|_].
  { injection H as <- <-. split; [exact Hne | split; [reflexivity |]].
    destruct (createFunc_success _ _ _ _ _ _ Hp Hne) as (Hm & _).
    exists [sdModel]. simpl. rewrite Hm. apply lookup_insert_eq. }
  apply bind_inv_Ret in H as ([] & w5 & _ & H).
  now apply IH in H.
Qed.

(** P1, second half: with the endpoint cached and recorded, a further
    call returns it and changes nothing. *)
Lemma GetEndpoint_loop_cached reTry key sdModel w endpoint rest :
  endpoints w !! key = Some (endpoint :: rest) ->
  endpoint <> "" ->
  lastInvokeEndpoint w = endpoint ->
  GetEndpoint_loop (Datatypes.S reTry) key sdModel w = Ret (endpoint, None) w.
Proof.
  intros Hk Hne Hl.
  rewrite (GetEndpoint_loop_hit _ _ _ _ _ _ Hk Hne).
  now rewrite <- Hl, with_lastInvokeEndpoint_id.
Qed.

(** ** The lookup key *)

Lemma endpointKey_default sdModel :
  config.GetFlexMode ConfigGlobal = config.SingleFunc \/ sdModel = "" ->
  endpointKey sdModel = "default".
Proof.
  unfold endpointKey. intros [H| ->].
  - rewrite H. reflexivity.
  - destruct (bool_decide _); reflexivity.
Qed.

Lemma endpointKey_own sdModel :
  config.GetFlexMode ConfigGlobal = config.MultiFunc -> sdModel <> "" ->
  endpointKey sdModel = sdModel.
Proof.
  unfold endpointKey. intros H Hne.
  rewrite (bool_decide_eq_true_2 _ H), (bool_decide_eq_true_2 _ Hne).
  reflexivity.
Qed.

(** C8.  In single-function mode, for every model key, and in either mode
    for the empty model key, [GetEndpoint] resolves under the key
    "default": it is the loop run on that key, a non-empty endpoint cached
    under "default" is what it returns, what it returns on success is
    cached under "default", and every later call that also resolves under
    "default" returns that same endpoint. *)
Theorem GetEndpoint_default_key sdModel w :
  config.GetFlexMode ConfigGlobal = config.SingleFunc \/ sdModel = "" ->
  endpointKey sdModel = "default"
  /\ GetEndpoint sdModel w = GetEndpoint_loop 2 "default" sdModel w
  /\ (forall endpoint rest,
        endpoints w !! "default" = Some (endpoint :: rest) ->
        endpoint <> "" ->
        GetEndpoint sdModel w
        = Ret (endpoint, None) (with_lastInvokeEndpoint endpoint w))
  /\ (forall endpoint w',
        GetEndpoint sdModel w = Ret (endpoint, None) w' ->
        (exists rest, endpoints w' !! "default" = Some (endpoint :: rest))
        /\ forall other,
             config.GetFlexMode ConfigGlobal = config.SingleFunc \/ other = "" ->
             GetEndpoint other w' = Ret (endpoint, None) w').
Proof.
  intros Hmode. pose proof (endpointKey_default _ Hmode) as Hkey.
  unfold GetEndpoint. rewrite Hkey.
  split; [reflexivity | split; [reflexivity | split]].
  - intros endpoint rest Hk Hne. now apply GetEndpoint_loop_hit with rest.
  - intros endpoint w' H.
    apply GetEndpoint_loop_success in H as (Hne & Hl & rest & Hk).
    split; [now exists rest |].
    intros other Hother. rewrite (endpointKey_default _ Hother).
    now apply GetEndpoint_loop_cached with rest.
Qed.

(** ** A cold start, then the cache *)


(** ** The last endpoint *)

Lemma assert_string_inv x w s w' :
  assert_string x w = Ret s w' -> x = Some (VString s) /\ w' = w.
Proof.
  destruct x as [[s0|z]|]; simpl; intros H; try discriminate H.
  injection H as <- <-. now split.
Qed.

Lemma loadFunc_loop_last funcAll w w' :
  loadFunc_loop funcAll w = Ret tt w' ->
  exists loaded,
    Forall2 reads_endpoint funcAll loaded
    /\ lastInvokeEndpoint w'
       = if decide (lastInvokeEndpoint w = "") then first_nonempty loaded
         else lastInvokeEndpoint w.
Proof.
  revert w. induction funcAll as [|[k data] rest IH]; intros w H.
  - injection H as <-. exists []. split; [constructor |].
    simpl. destruct (decide _) as [->|]; reflexivity.
  - simpl in H.
    apply bind_inv_Ret in H as (key & w1 & Hk & H).
    apply assert_string_inv in Hk as [Hk ->].
    apply bind_inv_Ret in H as (endpoint & w1 & He & H).
    apply assert_string_inv in He as [He ->].
    apply bind_inv_Ret in H as (last & w1 & Hl & H).
    injection Hl as <- <-.
    apply bind_inv_Ret in H as ([] & w2 & Hset & H).
    apply bind_inv_Ret in H as (sdModel & w3 & Hm & H).
    apply assert_string_inv in Hm as [Hm ->].
    apply bind_inv_Ret in H as ([] & w4 & Hput & H).
    injection Hput as <-.
    apply IH in H as (loaded & HF & Hlast).
    exists (endpoint :: loaded). split; [constructor; [exact He | exact HF] |].
    rewrite Hlast. simpl.
    destruct (decide (lastInvokeEndpoint w = "")) as [Hw|Hw].
    + injection Hset as <-. simpl.
      destruct (decide (endpoint = "")); reflexivity.
    + injection Hset as <-.
      destruct (decide (lastInvokeEndpoint w = "")); [contradiction | reflexivity].
Qed.

(** C9, amended.  In a cache of pairs [GetLastInvokeEndpoint] returns and
    changes at most the last endpoint, so it reaches neither store nor
    backend.  For a non-empty key cached with a non-empty endpoint it
    records and returns that endpoint; for the nil pointer, the empty key,
    an absent key or a key cached with the empty endpoint it returns the
    last endpoint unchanged.  The last endpoint is empty in a new manager,
    is the endpoint of every successful [GetEndpoint], and is initialised by
    the loop of [loadFunc] to the first non-empty endpoint it loads. *)
Theorem GetLastInvokeEndpoint_spec sdModel w :
  cache_wf w ->
  (exists endpoint,
     GetLastInvokeEndpoint sdModel w
     = Ret endpoint (with_lastInvokeEndpoint endpoint w))
  /\ (forall m endpoint rest,
        sdModel = Some m -> m <> "" ->
        endpoints w !! m = Some (endpoint :: rest) -> endpoint <> "" ->
        GetLastInvokeEndpoint sdModel w
        = Ret endpoint (with_lastInvokeEndpoint endpoint w))
  /\ (sdModel = None \/ sdModel = Some ""
       \/ (exists m, sdModel = Some m
                     /\ (endpoints w !! m = None
                         \/ exists rest, endpoints w !! m = Some ("" :: rest))) ->
       GetLastInvokeEndpoint sdModel w = Ret (lastInvokeEndpoint w) w)
  /\ (forall funcStore0 fcClient0 now,
        lastInvokeEndpoint (new_FuncManager funcStore0 fcClient0 now) = "")
  /\ (forall model w0 endpoint w',
        GetEndpoint model w0 = Ret (endpoint, None) w' ->
        lastInvokeEndpoint w' = endpoint)
  /\ (forall funcAll w0 w',
        loadFunc_loop funcAll w0 = Ret tt w' ->
        exists loaded,
          Forall2 reads_endpoint funcAll loaded
          /\ lastInvokeEndpoint w'
             = if decide (lastInvokeEndpoint w0 = "") then first_nonempty loaded
               else lastInvokeEndpoint w0).
Proof.
  intros Hwf.
  assert (Hhit : forall m endpoint rest,
            sdModel = Some m -> m <> "" ->
            endpoints w !! m = Some (endpoint :: rest) -> endpoint <> "" ->
            GetLastInvokeEndpoint sdModel w
            = Ret endpoint (with_lastInvokeEndpoint endpoint w)).
  { intros m endpoint rest -> Hm Hk Hne. unfold GetLastInvokeEndpoint.
    destruct (decide (m = "")); [contradiction |].
    unfold getEndpointFromCache, bind, gets. rewrite Hk. simpl.
    destruct (decide (endpoint <> "")); [reflexivity | contradiction]. }
  assert (Hmiss : sdModel = None \/ sdModel = Some ""
       \/ (exists m, sdModel = Some m
                     /\ (endpoints w !! m = None
                         \/ exists rest, endpoints w !! m = Some ("" :: rest))) ->
       GetLastInvokeEndpoint sdModel w = Ret (lastInvokeEndpoint w) w).
  { intros [->|[->|(m & -> & Hk)]]; [reflexivity | reflexivity |].
    unfold GetLastInvokeEndpoint.
    destruct (decide (m = "")); [reflexivity |].
    unfold getEndpointFromCache, bind, gets.
    destruct Hk as [Hk|[rest Hk]]; rewrite Hk; simpl.
    - destruct (decide ("" <> "")) as [Hx|_]; [now contradiction Hx | reflexivity].
    - destruct (decide ("" <> "")) as [Hx|_]; [now contradiction Hx | reflexivity]. }
  split; [| split; [exact Hhit | split; [exact Hmiss | split; [reflexivity | split]]]].
  - destruct sdModel as [m|].
    2:{ exists (lastInvokeEndpoint w). rewrite with_lastInvokeEndpoint_id.
        apply Hmiss. now left. }
    destruct (decide (m = "")) as [->|Hm].
    { exists (lastInvokeEndpoint w). rewrite with_lastInvokeEndpoint_id.
      apply Hmiss. right. now left. }
    destruct (endpoints w !! m) as [val|] eqn:Hk.
    2:{ exists (lastInvokeEndpoint w). rewrite with_lastInvokeEndpoint_id.
        apply Hmiss. right. right. exists m. split; [reflexivity | now left]. }
    pose proof (Hwf _ _ Hk) as Hlen.
    destruct val as [|endpoint rest]; [discriminate Hlen |].
    destruct (decide (endpoint = "")) as [->|Hne].
    + exists (lastInvokeEndpoint w). rewrite with_lastInvokeEndpoint_id.
      apply Hmiss. right. right. exists m. split; [reflexivity | right; now exists rest].
    + exists endpoint. now apply Hhit with m rest.
  - intros model w0 endpoint w' H. unfold GetEndpoint in H.
    now apply GetEndpoint_loop_success in H as (_ & Hl & _).
  - apply loadFunc_loop_last.
Qed.

(** ** A reference function that cannot be read *)

Lemma isFc3_createFunc key sdModel env0 w :
  isFc3 = true ->
  createFunc key sdModel env0 w
  = bind (createFc3Function (GetFunctionName key) env0)
      (fun r =>
         let (endpoint, err) := r in
         if is_nil err && bool_decide (endpoint <> "") then
           set_endpoint key [endpoint; sdModel] ;;
           putFunc key (GetFunctionName key) sdModel endpoint ;;
           ret endpoint
         else
           (do msg <- err_Error err; logrus_Info msg) ;;
           ret "") w.
Proof. intros H. unfold createFunc. now rewrite H. Qed.

(** C4, amended.  For the newer generation, when the reference function
    cannot be read, the provisioning attempt fails at once with the error
    "get createFunctionRequest error": it has only read the reference
    function and logged the error, with no create-function or
    create-trigger call and no change of cache or store.  [GetEndpoint]
    treats it as any failed attempt: it sleeps and spends the rest of its
    budget on a further attempt. *)
Theorem GetEndpoint_retries_unreadable_reference sdModel w0 w1 w e b :
  let key := endpointKey sdModel in
  let reference := config.ServerName ConfigGlobal in
  let w' := with_trace (EvLogInfo "get createFunctionRequest error")
              (with_fcClient b (with_trace (EvGetFunction reference) w)) in
  isFc3 = true ->
  getEndpointFromCache key w0 = Ret "" w1 ->
  getEndpointFromDb key w1 = Ret "" w ->
  fc3_GetFunction client reference (fcClient w) = (Err e, b) ->
  createFc3Function (GetFunctionName key) (envAt sdModel w) w
  = Ret ("", Some (errors_New "get createFunctionRequest error"))
      (with_fcClient b (with_trace (EvGetFunction reference) w))
  /\ createFunc key sdModel (envAt sdModel w) w = Ret "" w'
  /\ endpoints w' = endpoints w
  /\ funcStore w' = funcStore w
  /\ provisions (trace w') = provisions (trace w)
  /\ GetEndpoint sdModel w0
     = GetEndpoint_loop 1 key sdModel (slept RETRY_INTERVALMS w').
Proof.
  intros key reference w' Hfc3 Hcache Hdb Hget.
  assert (H3 : createFc3Function (GetFunctionName key) (envAt sdModel w) w
    = Ret ("", Some (errors_New "get createFunctionRequest error"))
        (with_fcClient b (with_trace (EvGetFunction reference) w))).
  { unfold createFc3Function, getCreateFuncRequestFc3, GetFcFunc.
    rewrite Hfc3. unfold bind, emit, modify, on_client. simpl.
    fold reference. now rewrite Hget. }
  assert (Hc : createFunc key sdModel (envAt sdModel w) w = Ret "" w').
  { rewrite (isFc3_createFunc _ _ _ _ Hfc3).
    rewrite (bind_Ret _ _ _ _ _ H3). reflexivity. }
  split; [exact H3 | split; [exact Hc | repeat split]].
  unfold GetEndpoint. fold key.
  apply (GetEndpoint_loop_miss _ _ _ _ _ _ _ Hcache Hdb Hc).
Qed.

(** ** A trigger without address *)

(** C5 at its failing input, FC 2.0: when the function and its trigger are
    created and the trigger's address is the empty string, [createFunc]
    reaches [err.Error()] with the nil error and panics, and so does a
    [GetEndpoint] that comes to provision after missing cache and store. *)
Theorem createFunc_panics_on_empty_address key sdModel env0 w b1 b2 :
  let serviceName := config.ServiceName ConfigGlobal in
  let functionName := GetFunctionName key in
  let w' := with_fcClient b2 (with_trace (EvCreateTrigger functionName)
              (with_fcClient b1 (with_trace (EvCreateFunction functionName) w))) in
  isFc3 = false ->
  fc_CreateFunctionWithOptions client serviceName
    (getCreateFuncRequest functionName env0) (config.AccountId ConfigGlobal)
    (fcClient w) = (None, b1) ->
  fc_CreateTrigger client serviceName functionName getHttpTrigger b1
  = (Ok (Some ""), b2) ->
  createFunc key sdModel env0 w
  = Panic "invalid memory address or nil pointer dereference" w'
  /\ forall reTry w0 w1,
       getEndpointFromCache key w0 = Ret "" w1 ->
       getEndpointFromDb key w1 = Ret "" w ->
       env0 = envAt sdModel w ->
       GetEndpoint_loop (Datatypes.S reTry) key sdModel w0
       = Panic "invalid memory address or nil pointer dereference" w'.
Proof.
  intros serviceName functionName w' Hfc Hcreate Htrigger.
  assert (Hp : createFunc key sdModel env0 w
               = Panic "invalid memory address or nil pointer dereference" w').
  { unfold createFunc, createFCFunction. rewrite Hfc.
    fold serviceName functionName.
    unfold bind, emit, modify, on_client, deref, ret. simpl.
    rewrite Hcreate. simpl. rewrite Htrigger. reflexivity. }
  split; [exact Hp |].
  intros reTry w0 w1 Hc Hd ->. simpl.
  rewrite (bind_Ret _ _ _ _ _ Hc).
  destruct (decide ("" <> "")) as [Hx|_]; [now contradiction Hx |].
  rewrite (bind_Ret _ _ _ _ _ Hd).
  destruct (decide ("" <> "")) as [Hx|_]; [now contradiction Hx |].
  rewrite (bind_Ret _ _ _ _ _ (getEnv_envAt sdModel w)).
  now rewrite (bind_Panic _ _ _ _ _ Hp).
Qed.

(** Two more panics on answers of the backend: [UpdateFunctionEnv] writes
    into the environment map of the function, which is nil when the
    function has no environment; and [GetFuncResource] dereferences the
    members of the answer. *)
Lemma UpdateFunctionEnv_panics_on_nil_map key w res w1 :
  GetFuncResource (GetFunctionName key) w = Ret (Some res) w1 ->
  res_Env res = None ->
  UpdateFunctionEnv key w = Panic "assignment to entry in nil map" w1.
Proof.
  intros H Henv. unfold UpdateFunctionEnv.
  rewrite (bind_Ret _ _ _ _ _ H). unfold bind, TimestampS, gets.
  now rewrite Henv.
Qed.

(** ** Refreshing every function *)

Lemma loadFunc_loop_cached funcAll w w' :
  loadFunc_loop funcAll w = Ret tt w' ->
  (forall key, is_Some (endpoints w !! key) -> is_Some (endpoints w' !! key))
  /\ forall k data, (k, data) ∈ funcAll ->
       exists key, data !! KModelServiceKey cols = Some (VString key)
                   /\ is_Some (endpoints w' !! key).
Proof.
  revert w. induction funcAll as [|[k0 data0] rest IH]; intros w H.
  - injection H as <-. split; [auto |]. intros k data Hin. inversion Hin.
  - simpl in H.
    apply bind_inv_Ret in H as (key & w1 & Hk & H).
    apply assert_string_inv in Hk as [Hk ->].
    apply bind_inv_Ret in H as (endpoint & w1 & He & H).
    apply assert_string_inv in He as [He ->].
    apply bind_inv_Ret in H as (last & w1 & Hl & H).
    injection Hl as <- <-.
    apply bind_inv_Ret in H as ([] & w2 & Hset & H).
    apply bind_inv_Ret in H as (sdModel & w3 & Hm & H).
    apply assert_string_inv in Hm as [Hm ->].
    apply bind_inv_Ret in H as ([] & w4 & Hput & H).
    injection Hput as <-.
    assert (Hw2 : endpoints w2 = endpoints w).
    { destruct (decide (lastInvokeEndpoint w = "")); now injection Hset as <-. }
    apply IH in H as [Hmono Hrest].
    assert (Hnow : is_Some (endpoints w' !! key)).
    { apply Hmono. simpl. rewrite lookup_insert_eq. eauto. }
    split.
    + intros key' Hsome. apply Hmono. simpl. rewrite Hw2.
      rewrite lookup_insert. destruct (decide (key = key')); [eauto | exact Hsome].
    + intros k data Hin. apply elem_of_cons in Hin as [[= -> ->]|Hin].
      * exists key. now split.
      * now apply Hrest with k.
Qed.

Lemma UpdateAllFunctionEnv_loop_ok keys w w' :
  UpdateAllFunctionEnv_loop keys w = Ret None w'
  <-> all_updated keys.*1 w w'.
Proof.
  revert w. induction keys as [|[key val] rest IH]; intros w; simpl.
  - split.
    + intros [= <-]. constructor.
    + intros H. inversion H. reflexivity.
  - split.
    + intros H. apply bind_inv_Ret in H as (err & w1 & Hu & H).
      destruct err as [e|]; [discriminate H |].
      apply IH in H. now apply all_updated_cons with w1.
    + intros H. inversion H as [|? ? ? w1 ? Hu Hrest]; subst.
      rewrite (bind_Ret _ _ _ _ _ Hu). now apply IH.
Qed.

Lemma UpdateAllFunctionEnv_loop_failure keys w e w' :
  UpdateAllFunctionEnv_loop keys w = Ret (Some e) w'
  <-> first_failure keys.*1 w e w'.
Proof.
  revert w. induction keys as [|[key val] rest IH]; intros w; simpl.
  - split.
    + intros [=].
    + intros (before & k & r & w1 & Heq & _). now destruct before.
  - split.
    + intros H. apply bind_inv_Ret in H as (err & w1 & Hu & H).
      destruct err as [e'|].
      * injection H as <- <-.
        exists [], key, rest.*1, w. repeat split; [constructor | exact Hu].
      * apply IH in H as (before & k & r & w2 & Heq & Hdone & Hfail).
        exists (key :: before), k, r, w2. split; [simpl; f_equal; exact Heq |].
        split; [now apply all_updated_cons with w1 | exact Hfail].
    + intros (before & k & r & w1 & Heq & Hdone & Hfail).
      destruct before as [|key' before]; simpl in Heq; injection Heq as <- Heq.
      * inversion Hdone; subst. now rewrite (bind_Ret _ _ _ _ _ Hfail).
      * inversion Hdone as [|? ? ? w2 ? Hu Hrest]; subst.
        rewrite (bind_Ret _ _ _ _ _ Hu). apply IH.
        now exists before, k, r, w1.
Qed.


(** ** The batch of resource updates *)

Lemma sendUpdates_length entries b :
  length (fst (sendUpdates entries b)) = length entries.
Proof.
  revert b. induction entries as [|[key resource] rest IH]; intros b; simpl.
  - reflexivity.
  - destruct (updateCall _ _ b) as [answer b1].
    specialize (IH b1). destruct (sendUpdates rest b1) as [answers b2].
    simpl in *. now rewrite IH.
Qed.

Lemma succeeded_rejected_length entries answers :
  length answers = length entries ->
  (length (succeeded entries answers) + length (rejected entries answers))%nat
  = length entries.
Proof.
  revert answers. induction entries as [|[key resource] rest IH];
    intros [|[e|] answers] Hlen; simpl in *; try discriminate Hlen;
    try reflexivity; injection Hlen as Hlen; specialize (IH _ Hlen); lia.
Qed.

Lemma succeeded_elem entries answers key :
  key ∈ succeeded entries answers ->
  exists i resource, entries !! i = Some (key, resource)
                     /\ answers !! i = Some None.
Proof.
  revert answers. induction entries as [|[key0 resource0] rest IH];
    intros [|[e|] answers]; simpl; intros Hin; try (now inversion Hin).
  - destruct (IH _ Hin) as (i & r & H1 & H2). now exists (Datatypes.S i), r.
  - apply elem_of_cons in Hin as [->|Hin].
    + now exists 0%nat, resource0.
    + destruct (IH _ Hin) as (i & r & H1 & H2). now exists (Datatypes.S i), r.
Qed.

Lemma succeeded_lookup entries answers i key resource :
  entries !! i = Some (key, resource) -> answers !! i = Some None ->
  key ∈ succeeded entries answers.
Proof.
  revert answers i. induction entries as [|[key0 resource0] rest IH];
    intros [|[e|] answers] [|i]; simpl; intros H1 H2; try discriminate.
  - now apply IH with i.
  - injection H1 as -> ->. apply list_elem_of_here.
  - apply list_elem_of_further. now apply IH with i.
Qed.

Lemma rejected_lookup entries answers i key resource e :
  entries !! i = Some (key, resource) -> answers !! i = Some (Some e) ->
  (GetFunctionName key, Error e) ∈ rejected entries answers.
Proof.
  revert answers i. induction entries as [|[key0 resource0] rest IH];
    intros [|[e0|] answers] [|i]; simpl; intros H1 H2; try discriminate.
  - injection H1 as -> ->. injection H2 as ->. apply list_elem_of_here.
  - apply list_elem_of_further. now apply IH with i.
  - now apply IH with i.
Qed.

Lemma UpdateFunctionResource_loop_run entries success fail errs w :
  exists w',
    UpdateFunctionResource_loop (pointer <$> entries) success fail errs w
    = Ret (success ++ succeeded entries (fst (sendUpdates entries (fcClient w))),
           fail ++ (rejected entries (fst (sendUpdates entries (fcClient w)))).*1,
           errs ++ (rejected entries (fst (sendUpdates entries (fcClient w)))).*2)%list
        w'
    /\ trace w' = (rev (update_event <$> entries) ++ trace w)%list
    /\ fcClient w' = snd (sendUpdates entries (fcClient w))
    /\ endpoints w' = endpoints w
    /\ funcStore w' = funcStore w
    /\ lastInvokeEndpoint w' = lastInvokeEndpoint w.
Proof.
  revert success fail errs w.
  induction entries as [|[key resource] rest IH]; intros success fail errs w.
  - exists w. simpl. now rewrite !app_nil_r.
  - simpl. unfold bind at 1 2 3. simpl.
    unfold on_client. simpl. fold (updateCall (GetFunctionName key)
                                     (resourceRequest resource)).
    destruct (updateCall _ _ (fcClient w)) as [answer b1] eqn:Ecall.
    cbv beta iota zeta.
    destruct answer as [e|].
    + destruct (IH success (fail ++ [GetFunctionName key])%list
                  (errs ++ [Error e])%list
                  (with_fcClient b1 (with_trace
                     (update_event (key, resource)) w)))
        as (w' & Hrun & Htr & Hb & He & Hs & Hl).
      exists w'. simpl in *.
      destruct (sendUpdates rest b1) as [answers b2]. simpl in *.
      split; [etransitivity; [exact Hrun |]; now rewrite <- !app_assoc |].
      split; [| now repeat split].
      etransitivity; [exact Htr |]. now rewrite <- app_assoc.
    + destruct (IH (success ++ [key])%list fail errs
                  (with_fcClient b1 (with_trace
                     (update_event (key, resource)) w)))
        as (w' & Hrun & Htr & Hb & He & Hs & Hl).
      exists w'. simpl in *.
      destruct (sendUpdates rest b1) as [answers b2]. simpl in *.
      split; [etransitivity; [exact Hrun |]; now rewrite <- !app_assoc |].
      split; [| now repeat split].
      etransitivity; [exact Htr |]. now rewrite <- app_assoc.
Qed.

(** C6, amended.  For resource pointers that are not nil, visited in the
    order [entries], [UpdateFunctionResource] sends the update of every
    entry, one after the other, whatever the backend answered for the
    others: its trace grows by exactly these updates and the backend ends
    where these calls leave it, while cache and store are untouched.  Every
    key of the map has one entry.  A key whose update was accepted is in the
    success list; a key whose update was rejected is not, and its function
    name (not the key) is in the failure list, with the message of the
    rejection in the message list.  The failure list and the message list
    have the same length, and the success and failure lists together have
    one element for each key. *)
Theorem UpdateFunctionResource_batch resources entries w :
  range_spec ->
  range (option FuncResource) resources = pointer <$> entries ->
  let answers := fst (sendUpdates entries (fcClient w)) in
  let success := succeeded entries answers in
  let failures := rejected entries answers in
  exists w',
    UpdateFunctionResource resources w
    = Ret (success, failures.*1, failures.*2) w'
    /\ trace w' = (rev (update_event <$> entries) ++ trace w)%list
    /\ fcClient w' = snd (sendUpdates entries (fcClient w))
    /\ endpoints w' = endpoints w
    /\ funcStore w' = funcStore w
    /\ length failures.*1 = length failures.*2
    /\ (length success + length failures.*1)%nat = size resources
    /\ (forall key, is_Some (resources !! key) ->
          exists i resource, entries !! i = Some (key, resource))
    /\ (forall i j key resource resource',
          entries !! i = Some (key, resource) ->
          entries !! j = Some (key, resource') -> i = j)
    /\ forall i key resource,
         entries !! i = Some (key, resource) ->
         (answers !! i = Some None /\ key ∈ success)
         \/ (exists e, answers !! i = Some (Some e)
                       /\ (key ∉ success)
                       /\ (GetFunctionName key, Error e) ∈ failures).
Proof.
  intros Hrange Hentries answers success failures.
  destruct (UpdateFunctionResource_loop_run entries [] [] [] w)
    as (w' & Hrun & Htr & Hb & He & Hs & _).
  assert (Hfst : (pointer <$> entries).*1 = entries.*1).
  { rewrite <- list_fmap_compose. apply list_fmap_ext. now intros ? [k r] ?. }
  assert (Hnodup : NoDup entries.*1).
  { rewrite <- Hfst, <- Hentries, (Hrange _ resources).
    apply NoDup_fst_map_to_list. }
  assert (Hone : forall i j key resource resource',
            entries !! i = Some (key, resource) ->
            entries !! j = Some (key, resource') -> i = j).
  { intros i j key resource resource' Hi Hj.
    apply (NoDup_lookup _ i j key Hnodup); rewrite list_lookup_fmap.
    - now rewrite Hi.
    - now rewrite Hj. }
  assert (Hlen : length answers = length entries)
    by apply sendUpdates_length.
  exists w'. unfold UpdateFunctionResource. rewrite Hentries.
  split; [exact Hrun |].
  split; [exact Htr |]. split; [exact Hb |]. split; [exact He |].
  split; [exact Hs |].
  split; [now rewrite !length_fmap |].
  split.
  { rewrite length_fmap.
    unfold success, failures. rewrite (succeeded_rejected_length _ _ Hlen).
    rewrite <- (length_fmap pointer entries), <- Hentries, (Hrange _ resources).
    apply length_map_to_list. }
  split.
  { intros key [v Hv].
    assert (Hin : (key, v) ∈ pointer <$> entries).
    { rewrite <- Hentries, (Hrange _ resources). now apply elem_of_map_to_list. }
    apply list_elem_of_fmap in Hin as ([k r] & Heq & Hin).
    injection Heq as -> ->.
    apply list_elem_of_lookup in Hin as [i Hi]. now exists i, r. }
  split; [exact Hone |].
  intros i key resource Hi.
  destruct (answers !! i) as [[e|]|] eqn:Ha.
  - right. exists e. split; [reflexivity | split].
    + intros Hin. apply succeeded_elem in Hin as (j & r & Hj & Haj).
      rewrite (Hone _ _ _ _ _ Hj Hi) in Haj. fold answers in Haj. congruence.
    + now apply rejected_lookup with i resource.
  - left. split; [reflexivity |]. now apply succeeded_lookup with i resource.
  - apply lookup_ge_None in Ha. apply lookup_lt_Some in Hi. lia.
Qed.

(** ** Exhausting the retry budget *)

(** C3.  When both attempts of the budget miss the cache, miss the store
    and fail to provision, [GetEndpoint] sleeps [RETRY_INTERVALMS] after
    each attempt, the second attempt starting from the world after the
    first sleep, and returns the empty endpoint with the error
    "not get sd endpoint". *)
Theorem GetEndpoint_exhausted sdModel w w1 w2 w3 w4 w5 w6 :
  let key := endpointKey sdModel in
  getEndpointFromCache key w = Ret "" w1 ->
  getEndpointFromDb key w1 = Ret "" w2 ->
  createFunc key sdModel (envAt sdModel w2) w2 = Ret "" w3 ->
  getEndpointFromCache key (slept RETRY_INTERVALMS w3) = Ret "" w4 ->
  getEndpointFromDb key w4 = Ret "" w5 ->
  createFunc key sdModel (envAt sdModel w5) w5 = Ret "" w6 ->
  GetEndpoint sdModel w
  = Ret ("", Some (errors_New "not get sd endpoint")) (slept RETRY_INTERVALMS w6)
  /\ RETRY_INTERVALMS = 10.
Proof.
  intros key H1 H2 H3 H4 H5 H6. split; [| reflexivity].
  unfold GetEndpoint. fold key.
  rewrite (GetEndpoint_loop_miss _ _ _ _ _ _ _ H1 H2 H3).
  rewrite (GetEndpoint_loop_miss _ _ _ _ _ _ _ H4 H5 H6).
  reflexivity.
Qed.

(** * Further properties of the manager *)

(** ** Resolution from the store *)

(** A binding that the store holds is returned without a call to the
    backend: the call reads the store once, caches the pair and records
    the endpoint. *)
Theorem GetEndpoint_from_store sdModel w data s1 endpoint model :
  let key := endpointKey sdModel in
  endpoints w !! key = None ->
  ds_Get store key [KModelServiceSdModel cols; KModelServiceEndPoint cols]
    (funcStore w) = (Ok data, s1) ->
  data !! KModelServiceEndPoint cols = Some (VString endpoint) ->
  data !! KModelServiceSdModel cols = Some (VString model) ->
  endpoint <> "" ->
  GetEndpoint sdModel w
  = Ret (endpoint, None)
      (with_lastInvokeEndpoint endpoint
         (with_endpoint key [endpoint; model]
            (with_funcStore s1 (with_trace (EvStoreGet key) w)))).
Proof.
  intros key Hcache Hget He Hm Hne.
  unfold GetEndpoint. fold key. simpl.
  rewrite (bind_Ret _ _ _ _ _ (getEndpointFromCache_absent key w Hcache)).
  destruct (decide ("" <> "")) as [Hx|_]; [now contradiction Hx |].
  assert (Hdb : getEndpointFromDb key w
                = Ret endpoint (with_endpoint key [endpoint; model]
                     (with_funcStore s1 (with_trace (EvStoreGet key) w)))).
  { unfold getEndpointFromDb, bind, emit, modify, on_store. simpl.
    rewrite Hget.
    assert (Hsize : bool_decide (0 < size data)%nat = true).
    { apply bool_decide_eq_true_2.
      destruct (decide (size data = 0%nat)) as [Hz|Hz]; [| lia].
      apply map_size_empty_inv in Hz. subst data.
      rewrite lookup_empty in He. discriminate He. }
    rewrite Hsize, He, Hm. reflexivity. }
  rewrite (bind_Ret _ _ _ _ _ Hdb).
  destruct (decide (endpoint <> "")) as [_|Hx]; [reflexivity | contradiction].
Qed.

(** ** A failed provisioning attempt *)

Lemma final_bind {A C} (m : M A) (k : A -> M C) w :
  final (bind m k w)
  = match m w with
    | Ret a w1 => final (k a w1)
    | Panic _ w1 => w1
    end.
Proof. unfold bind. now destruct (m w). Qed.

Lemma createFunc_failure key sdModel env0 w :
  let o := createFunc key sdModel env0 w in
  (provisions (trace (final o)) <= Datatypes.S (provisions (trace w)))%nat
  /\ sleeps (trace (final o)) = sleeps (trace w)
  /\ ((forall endpoint w', o = Ret endpoint w' -> endpoint = "") ->
      endpoints (final o) = endpoints w
      /\ funcStore (final o) = funcStore w
      /\ lastInvokeEndpoint (final o) = lastInvokeEndpoint w
      /\ clock (final o) = clock w
      /\ store_puts (trace (final o)) = store_puts (trace w)).
Proof.
  cbv zeta. destruct (createFunc key sdModel env0 w) as [e w'|msg w'] eqn:H.
  - run_unfold H. repeat run_step H.
    all: injection H as <- <-.
    all: unfold provisions, sleeps, store_puts; simpl.
    all: split; [lia |]; split; [reflexivity |]; intros Hfail.
    all: try (specialize (Hfail _ _ eq_refl); subst).
    all: try (repeat split; reflexivity).
    all: match goal with
         | E : (_ && bool_decide (_ <> ""))%bool = true |- _ =>
             apply andb_true_iff in E as [_ E];
             apply bool_decide_eq_true_1 in E; now contradiction E
         end.
  - run_unfold H. repeat run_step H.
    all: injection H as <- <-.
    all: unfold provisions, sleeps, store_puts; simpl.
    all: split; [lia |]; split; [reflexivity |]; intros _.
    all: repeat split; reflexivity.
Qed.

(** Whatever the backend answers, [createFunc] writes the cache and the
    store only when it returns an endpoint: an attempt that returns the
    empty endpoint, or panics, leaves the cache, the store, the last
    endpoint and the clock as they were and has sent no row to the store;
    and no attempt calls create-function more than once. *)
Theorem createFunc_failure_writes_nothing key sdModel env0 w :
  let o := createFunc key sdModel env0 w in
  (provisions (trace (final o)) <= Datatypes.S (provisions (trace w)))%nat
  /\ sleeps (trace (final o)) = sleeps (trace w)
  /\ ((forall endpoint w', o = Ret endpoint w' -> endpoint = "") ->
      endpoints (final o) = endpoints w
      /\ funcStore (final o) = funcStore w
      /\ lastInvokeEndpoint (final o) = lastInvokeEndpoint w
      /\ clock (final o) = clock w
      /\ store_puts (trace (final o)) = store_puts (trace w)).
Proof. exact (createFunc_failure key sdModel env0 w). Qed.

(** ** The cost of a resolution *)

Lemma getEndpointFromCache_final key w :
  final (getEndpointFromCache key w) = w.
Proof.
  unfold getEndpointFromCache, bind, gets.
  destruct (endpoints w !! key) as [[|e rest]|]; reflexivity.
Qed.

Lemma getEndpointFromDb_final key w :
  trace (final (getEndpointFromDb key w)) = EvStoreGet key :: trace w
  /\ clock (final (getEndpointFromDb key w)) = clock w.
Proof.
  destruct (getEndpointFromDb key w) as [e w'|msg w'] eqn:H.
  all: run_unfold H; repeat run_step H.
  all: injection H as <- <-; now split.
Qed.

Lemma createFunc_final key sdModel env0 w :
  let w' := final (createFunc key sdModel env0 w) in
  (provisions (trace w') <= Datatypes.S (provisions (trace w)))%nat
  /\ sleeps (trace w') = sleeps (trace w)
  /\ clock w' = clock w
  /\ (store_puts (trace w') <= Datatypes.S (store_puts (trace w)))%nat
  /\ (createFunc key sdModel env0 w = Ret "" w' ->
      store_puts (trace w') = store_puts (trace w)).
Proof.
  cbv zeta.
  destruct (createFunc_failure key sdModel env0 w)
    as (Hp & Hs & Hfail).
  split; [exact Hp | split; [exact Hs |]].
  destruct (createFunc key sdModel env0 w) as [e w'|msg w'] eqn:H; simpl in *.
  - destruct (decide (e = "")) as [->|Hne].
    + destruct Hfail as (_ & _ & _ & Hc & Hput).
      { now intros ? ? [= <- <-]. }
      split; [exact Hc | split; [lia | intros _; exact Hput]].
    + destruct (createFunc_success _ _ _ _ _ _ H Hne) as (_ & _ & Hc & _ & Htr).
      split; [exact Hc | split].
      * rewrite Htr. unfold store_puts. simpl.
        rewrite List.filter_app, length_app. destruct isFc3; simpl; lia.
      * intros [= ->]. now contradiction Hne.
  - destruct Hfail as (_ & _ & _ & Hc & Hput); [intros ? ? [=] |].
    split; [exact Hc | split; [lia | intros [=]]].
Qed.

Lemma GetEndpoint_loop_cost reTry key sdModel w :
  let w' := final (GetEndpoint_loop reTry key sdModel w) in
  (provisions (trace w') <= provisions (trace w) + reTry)%nat
  /\ (store_puts (trace w') <= Datatypes.S (store_puts (trace w)))%nat
  /\ (sleeps (trace w') <= sleeps (trace w) + reTry)%nat
  /\ clock w <= clock w' <= clock w + RETRY_INTERVALMS * Z.of_nat reTry.
Proof.
  cbv zeta. revert w. induction reTry as [|reTry IH]; intros w.
  - simpl. unfold RETRY_INTERVALMS. repeat split; lia.
  - cbn [GetEndpoint_loop]. rewrite final_bind.
    pose proof (getEndpointFromCache_final key w) as Hc.
    destruct (getEndpointFromCache key w) as [e1 w1|msg w1]; simpl in Hc;
      subst w1; [| unfold RETRY_INTERVALMS; repeat split; lia].
    destruct (decide (e1 <> "")).
    { simpl. unfold RETRY_INTERVALMS. repeat split; lia. }
    rewrite final_bind.
    destruct (getEndpointFromDb_final key w) as [Hdt Hdc].
    destruct (getEndpointFromDb key w) as [e2 w2|msg w2]; simpl in Hdt, Hdc.
    2:{ rewrite Hdt, Hdc. unfold provisions, store_puts, sleeps,
          RETRY_INTERVALMS. simpl. repeat split; lia. }
    assert (Hw2 : provisions (trace w2) = provisions (trace w)
                  /\ store_puts (trace w2) = store_puts (trace w)
                  /\ sleeps (trace w2) = sleeps (trace w)).
    { rewrite Hdt. now unfold provisions, store_puts, sleeps. }
    destruct Hw2 as (Hp2 & Hs2 & Hz2).
    destruct (decide (e2 <> "")).
    { simpl. rewrite Hp2, Hs2, Hz2, Hdc. unfold RETRY_INTERVALMS.
      repeat split; lia. }
    rewrite final_bind, (getEnv_envAt sdModel w2), final_bind.
    destruct (createFunc_final key sdModel (envAt sdModel w2) w2)
      as (Hp3 & Hz3 & Hc3 & Hs3 & Hfail).
    destruct (createFunc key sdModel (envAt sdModel w2) w2) as [e3 w3|msg w3];
      simpl in Hp3, Hz3, Hc3, Hs3, Hfail.
    2:{ rewrite Hz3, Hc3, Hdc. unfold RETRY_INTERVALMS. repeat split; lia. }
    destruct (decide (e3 <> "")) as [Hne|He].
    { simpl. rewrite Hz3, Hc3, Hdc. unfold RETRY_INTERVALMS.
      repeat split; lia. }
    assert (e3 = "") as -> by (destruct (decide (e3 = "")); [assumption | contradiction]).
    specialize (Hfail eq_refl).
    rewrite final_bind. simpl.
    destruct (IH (slept RETRY_INTERVALMS w3)) as (IHp & IHs & IHz & IHc).
    unfold provisions, store_puts, sleeps in *. simpl in IHp, IHs, IHz, IHc.
    unfold RETRY_INTERVALMS in *. repeat split; lia.
Qed.


(** ** Reloading the cache *)

Lemma loadFunc_loop_final funcAll w :
  let w' := final (loadFunc_loop funcAll w) in
  (forall key, is_Some (endpoints w !! key) -> is_Some (endpoints w' !! key))
  /\ (forall key,
        (forall entry, entry ∈ funcAll -> ~ reads_key (snd entry) key) ->
        endpoints w' !! key = endpoints w !! key)
  /\ (lastInvokeEndpoint w <> "" ->
      lastInvokeEndpoint w' = lastInvokeEndpoint w)
  /\ funcStore w' = funcStore w
  /\ fcClient w' = fcClient w
  /\ trace w' = trace w.
Proof.
  cbv zeta. revert w. induction funcAll as [|[k data] rest IH]; intros w.
  - simpl. repeat split; auto.
  - cbn [loadFunc_loop]. rewrite final_bind.
    destruct (data !! KModelServiceKey cols) as [[key|z]|] eqn:Ek; simpl;
      try (repeat split; now auto).
    rewrite final_bind.
    destruct (data !! KModelServiceEndPoint cols) as [[endpoint|z]|] eqn:Ee;
      simpl; try (repeat split; now auto).
    rewrite final_bind. simpl. rewrite final_bind.
    set (w1 := if decide (lastInvokeEndpoint w = "")
               then with_lastInvokeEndpoint endpoint w else w).
    assert (Hw1 : (if decide (lastInvokeEndpoint w = "")
                   then set_lastInvokeEndpoint endpoint else ret tt) w
                  = Ret tt w1).
    { unfold w1. now destruct (decide (lastInvokeEndpoint w = "")). }
    rewrite Hw1.
    assert (H1 : endpoints w1 = endpoints w /\ funcStore w1 = funcStore w
                 /\ fcClient w1 = fcClient w /\ trace w1 = trace w
                 /\ (lastInvokeEndpoint w <> "" ->
                     lastInvokeEndpoint w1 = lastInvokeEndpoint w)).
    { unfold w1. destruct (decide (lastInvokeEndpoint w = "")); simpl;
        repeat split; auto. intros Hne. contradiction. }
    destruct H1 as (He1 & Hs1 & Hc1 & Ht1 & Hl1).
    rewrite final_bind.
    destruct (data !! KModelServiceSdModel cols) as [[sdModel|z]|] eqn:Em;
      simpl; try (rewrite He1, Hs1, Hc1, Ht1; repeat split; now auto).
    rewrite final_bind. simpl.
    destruct (IH (with_endpoint key [endpoint; sdModel] w1))
      as (IHmono & IHkeep & IHlast & IHs & IHc & IHt).
    simpl in IHmono, IHkeep, IHlast, IHs, IHc, IHt.
    split; [| split; [| split; [| split; [| split]]]].
    + intros key' Hsome. apply IHmono. rewrite He1, lookup_insert.
      destruct (decide (key = key')); [eauto | exact Hsome].
    + intros key' Hno. rewrite IHkeep.
      * rewrite He1, lookup_insert_ne; [reflexivity |].
        intros ->. apply (Hno (k, data)); [apply list_elem_of_here |].
        exact Ek.
      * intros entry Hin. apply Hno. now apply list_elem_of_further.
    + intros Hne. rewrite IHlast; rewrite (Hl1 Hne); auto.
    + now rewrite IHs.
    + now rewrite IHc.
    + now rewrite IHt.
Qed.

Lemma reads_key_dec data key : {reads_key data key} + {~ reads_key data key}.
Proof.
  unfold reads_key.
  destruct (data !! KModelServiceKey cols) as [[s|z]|].
  - destruct (decide (s = key)) as [->|Hne]; [now left | right; congruence].
  - right. discriminate.
  - right. discriminate.
Qed.

Lemma listed_key_dec (funcAll : list (string * row)) key :
  (exists entry, entry ∈ funcAll /\ reads_key (snd entry) key)
  \/ ~ (exists entry, entry ∈ funcAll /\ reads_key (snd entry) key).
Proof.
  induction funcAll as [|entry rest IH].
  - right. intros (e & Hin & _). inversion Hin.
  - destruct (reads_key_dec (snd entry) key) as [Hr|Hr].
    + left. exists entry. split; [apply list_elem_of_here | exact Hr].
    + destruct IH as [(e & Hin & He)|Hno].
      * left. exists e. split; [now apply list_elem_of_further | exact He].
      * right. intros (e & Hin & He).
        apply elem_of_cons in Hin as [->|Hin]; [contradiction |].
        apply Hno. now exists e.
Qed.

Lemma loadFunc_loop_binding funcAll w w' key :
  loadFunc_loop funcAll w = Ret tt w' ->
  (exists entry, entry ∈ funcAll /\ reads_key (snd entry) key) ->
  exists entry endpoint sdModel,
    entry ∈ funcAll
    /\ reads_binding (snd entry) key endpoint sdModel
    /\ endpoints w' !! key = Some [endpoint; sdModel].
Proof.
  revert w. induction funcAll as [|[k data] rest IH]; intros w H Hex.
  - destruct Hex as (entry & Hin & _). inversion Hin.
  - simpl in H.
    apply bind_inv_Ret in H as (key0 & w1 & Hk & H).
    apply assert_string_inv in Hk as [Hk ->].
    apply bind_inv_Ret in H as (endpoint & w1 & He & H).
    apply assert_string_inv in He as [He ->].
    apply bind_inv_Ret in H as (last & w1 & Hl & H).
    injection Hl as <- <-.
    apply bind_inv_Ret in H as ([] & w2 & Hset & H).
    apply bind_inv_Ret in H as (sdModel & w3 & Hm & H).
    apply assert_string_inv in Hm as [Hm ->].
    apply bind_inv_Ret in H as ([] & w4 & Hput & H).
    injection Hput as <-.
    assert (Hw2 : endpoints w2 = endpoints w).
    { destruct (decide (lastInvokeEndpoint w = "")); now injection Hset as <-. }
    destruct (listed_key_dec rest key) as [Hrest|Hrest].
    + destruct (IH _ H Hrest) as (entry & e & m & Hin & Hb & Hc).
      exists entry, e, m. split; [now apply list_elem_of_further | now split].
    + assert (Hhead : key0 = key).
      { destruct Hex as (entry & Hin & Hr).
        apply elem_of_cons in Hin as [->|Hin].
        - simpl in Hr. unfold reads_key in Hr. congruence.
        - exfalso. apply Hrest. now exists entry. }
      subst key0. exists (k, data), endpoint, sdModel.
      split; [apply list_elem_of_here |]. split; [now repeat split |].
      pose proof (loadFunc_loop_final rest
                    (with_endpoint key [endpoint; sdModel] w2)) as (_ & Hkeep & _).
      rewrite H in Hkeep. simpl in Hkeep. rewrite Hkeep.
      * apply lookup_insert_eq.
      * intros entry Hin Hr. apply Hrest. now exists entry.
Qed.

Lemma loadFunc_unfold w :
  loadFunc w
  = loadFunc_loop (range row (listing w))
      (with_funcStore
         (snd (ds_ListAll store
                 [KModelServiceKey cols; KModelServiceEndPoint cols;
                  KModelServiceSdModel cols; KModelServerImage cols]
                 (funcStore w)))
         (with_trace EvStoreListAll w)).
Proof.
  unfold loadFunc, listing, bind, emit, modify, on_store. simpl.
  now destruct (ds_ListAll store _ (funcStore w)) as [[m e] s'].
Qed.

(** A reload only adds and overwrites: whether [loadFunc] returns or
    panics on a malformed row, every key cached before is still cached, a
    key that no listed row names keeps its binding (also when the store no
    longer lists it), a non-empty last endpoint stays, and the backend is
    not called. *)
Theorem loadFunc_never_evicts w :
  range_spec ->
  let w' := final (loadFunc w) in
  (forall key, is_Some (endpoints w !! key) -> is_Some (endpoints w' !! key))
  /\ (forall key,
        (forall k data, listing w !! k = Some data -> ~ reads_key data key) ->
        endpoints w' !! key = endpoints w !! key)
  /\ (lastInvokeEndpoint w <> "" ->
      lastInvokeEndpoint w' = lastInvokeEndpoint w)
  /\ fcClient w' = fcClient w
  /\ trace w' = EvStoreListAll :: trace w.
Proof.
  intros Hrange. cbv zeta. rewrite loadFunc_unfold.
  match goal with
  | |- context [loadFunc_loop ?l ?w0] =>
      destruct (loadFunc_loop_final l w0) as (Hmono & Hkeep & Hlast & _ & Hc & Ht)
  end.
  simpl in Hmono, Hkeep, Hlast, Hc, Ht.
  split; [exact Hmono | split; [| split; [exact Hlast | split; [exact Hc | exact Ht]]]].
  intros key Hno. apply Hkeep. intros [k data] Hin. simpl.
  apply (Hno k). apply elem_of_map_to_list. now rewrite <- (Hrange _ (listing w)).
Qed.

(** After a reload that returns, a key that some listed row names is
    cached with the endpoint and model of a listed row that names it; and
    when that endpoint is not empty, every [GetEndpoint] that resolves
    under the key returns it from the cache, changing nothing but the last
    endpoint. *)
Theorem loadFunc_serves_listed w w1 k data key :
  range_spec ->
  loadFunc w = Ret tt w1 ->
  listing w !! k = Some data ->
  reads_key data key ->
  exists k' data' endpoint sdModel,
    listing w !! k' = Some data'
    /\ reads_binding data' key endpoint sdModel
    /\ endpoints w1 !! key = Some [endpoint; sdModel]
    /\ (endpoint <> "" ->
        forall model, endpointKey model = key ->
          GetEndpoint model w1
          = Ret (endpoint, None) (with_lastInvokeEndpoint endpoint w1)).
Proof.
  intros Hrange Hload Hk Hr. rewrite loadFunc_unfold in Hload.
  destruct (loadFunc_loop_binding _ _ _ key Hload)
    as ([k' data'] & endpoint & sdModel & Hin & Hb & Hc).
  { exists (k, data). split; [| exact Hr].
    rewrite (Hrange _ (listing w)). now apply elem_of_map_to_list. }
  exists k', data', endpoint, sdModel.
  split; [| split; [exact Hb | split; [exact Hc |]]].
  - apply elem_of_map_to_list. now rewrite <- (Hrange _ (listing w)).
  - intros Hne model Hkey. unfold GetEndpoint. rewrite Hkey.
    now apply GetEndpoint_loop_hit with [sdModel].
Qed.

(** ** Provisioning for the newer generation *)

(** When the reference function can be read, the request for the new
    function takes its role, network configuration and storage mounts from
    the reference function, nil members included, and the rest from the
    arguments and the configuration; and it is this request that
    [createFc3Function] sends: a rejection of it is returned as the error,
    with no trigger created. *)
Theorem createFc3Function_inherits functionName env0 w reference b :
  let serverName := config.ServerName ConfigGlobal in
  let w1 := with_fcClient b (with_trace (EvGetFunction serverName) w) in
  isFc3 = true ->
  fc3_GetFunction client serverName (fcClient w) = (Ok reference, b) ->
  exists input,
    getCreateFuncRequestFc3 functionName env0 w = Ret (Some input) w1
    /\ ci_Role input = gf3_Role reference
    /\ ci_VpcConfig input = gf3_VpcConfig reference
    /\ ci_NasConfig input = gf3_NasConfig reference
    /\ ci_OssMountConfig input = gf3_OssMountConfig reference
    /\ ci_FunctionName input = functionName
    /\ ci_EnvironmentVariables input = env0
    /\ ci_Runtime input = "custom-container"
    /\ gpu_GpuMemorySize (ci_GpuConfig input) = config.GpuMemorySize ConfigGlobal
    /\ forall err b',
         fc3_CreateFunction client input b = (Some err, b') ->
         createFc3Function functionName env0 w
         = Ret ("", Some err)
             (with_fcClient b' (with_trace (EvCreateFunction functionName) w1)).
Proof.
  intros serverName w1 Hfc3 Hget.
  eexists. split.
  { unfold getCreateFuncRequestFc3, GetFcFunc. rewrite Hfc3.
    unfold bind, emit, modify, on_client. simpl.
    fold serverName. rewrite Hget. reflexivity. }
  repeat split.
  intros err b' Hcreate.
  unfold createFc3Function, getCreateFuncRequestFc3, GetFcFunc. rewrite Hfc3.
  unfold bind, emit, modify, on_client. simpl.
  fold serverName. rewrite Hget. simpl. rewrite Hcreate. reflexivity.
Qed.

(** ** The refresh signal *)

Lemma GetFcFunc_trace functionName w :
  trace (final (GetFcFunc functionName w)) = EvGetFunction functionName :: trace w
  /\ endpoints (final (GetFcFunc functionName w)) = endpoints w
  /\ funcStore (final (GetFcFunc functionName w)) = funcStore w.
Proof.
  destruct (GetFcFunc functionName w) as [r w'|msg w'] eqn:H.
  all: run_unfold H; repeat run_step H.
  all: injection H as <- <-; now repeat split.
Qed.

(** For a function that the backend cannot read, [UpdateFunctionEnv] is a
    no-op that reports success: it returns no error and has sent nothing
    but the read. *)
Theorem UpdateFunctionEnv_missing_function key w w1 :
  GetFcFunc (GetFunctionName key) w = Ret None w1 ->
  UpdateFunctionEnv key w = Ret None w1
  /\ trace w1 = EvGetFunction (GetFunctionName key) :: trace w.
Proof.
  intros H. split.
  - unfold UpdateFunctionEnv, GetFuncResource.
    unfold bind at 1 2. now rewrite H.
  - pose proof (GetFcFunc_trace (GetFunctionName key) w) as (Ht & _).
    rewrite H in Ht. exact Ht.
Qed.

(** For a function that has an environment, [UpdateFunctionEnv] sends one
    update.  Its environment is the function's own with the refresh signal
    set to the time stamp, all other variables as they were; it carries the
    function's GPU memory size and leaves image, memory, CPU and timeout
    unset; and the answer of the backend is the result. *)
Theorem UpdateFunctionEnv_refreshes key w res w1 env0 :
  let functionName := GetFunctionName key in
  GetFuncResource functionName w = Ret (Some res) w1 ->
  res_Env res = Some env0 ->
  exists req env1,
    uf_EnvironmentVariables req = Some env1
    /\ env1 !! config.MODEL_REFRESH_SIGNAL = Some (Sprintf_d (clock w1 / 1000))
    /\ (forall name, name <> config.MODEL_REFRESH_SIGNAL ->
          env1 !! name = env0 !! name)
    /\ uf_GpuMemorySize req = Some (res_GpuMemorySize res)
    /\ uf_Image req = None /\ uf_MemorySize req = None
    /\ uf_Cpu req = None /\ uf_Timeout req = None
    /\ forall answer b,
         updateCall functionName req (fcClient w1) = (answer, b) ->
         let w2 := with_fcClient b
                     (with_trace (EvUpdateFunction functionName req) w1) in
         UpdateFunctionEnv key w
         = Ret answer
             match answer with
             | Some e => with_trace (EvLogInfo (Error e)) w2
             | None => w2
             end.
Proof.
  intros functionName Hres Henv.
  set (env1 := <[config.MODEL_REFRESH_SIGNAL
                 := Sprintf_d (clock w1 / 1000)]> env0).
  exists {| uf_Runtime := "custom-container";
            uf_GpuMemorySize := Some (res_GpuMemorySize res);
            uf_InstanceType :=
              if isFc3 then Some (res_InstanceType res) else None;
            uf_MemorySize := None;
            uf_Cpu := None;
            uf_Timeout := None;
            uf_Image := None;
            uf_EnvironmentVariables := Some env1 |}, env1.
  split; [reflexivity |].
  split; [apply lookup_insert_eq |].
  split; [intros name Hne; now apply lookup_insert_ne |].
  do 5 (split; [reflexivity |]).
  intros answer b Hcall. unfold UpdateFunctionEnv. fold functionName.
  rewrite (bind_Ret _ _ _ _ _ Hres).
  unfold bind at 1. unfold TimestampS, gets. rewrite Henv.
  unfold bind, emit, modify, on_client, logrus_Info. simpl.
  unfold updateCall in Hcall. fold env1.
  destruct isFc3; simpl in *; rewrite Hcall; destruct answer; reflexivity.
Qed.

(** ** Answers with nil members *)

(** For the newer generation, [GetFuncResource] returns the resource of a
    function whose answer has all six members, and panics when one of them
    is nil, as the GPU members of a function without GPU are; then
    [UpdateFunctionEnv] panics with it, having sent no update. *)
Theorem GetFuncResource_needs_every_member key w info b :
  let functionName := GetFunctionName key in
  let w1 := with_fcClient b (with_trace (EvGetFunction functionName) w) in
  isFc3 = true ->
  fc3_GetFunction client functionName (fcClient w) = (Ok info, b) ->
  (forall image cpu memorySize gpuMemorySize timeout gpuType,
     gf3_Image info = Some image -> gf3_Cpu info = Some cpu ->
     gf3_MemorySize info = Some memorySize ->
     gf3_GpuMemorySize info = Some gpuMemorySize ->
     gf3_Timeout info = Some timeout -> gf3_GpuType info = Some gpuType ->
     GetFuncResource functionName w
     = Ret (Some {| res_Image := image;
                    res_CPU := cpu;
                    res_GpuMemorySize := gpuMemorySize;
                    res_InstanceType := gpuType;
                    res_MemorySize := memorySize;
                    res_Timeout := timeout;
                    res_Env := gf3_EnvironmentVariables info |}) w1)
  /\ (gf3_Image info = None \/ gf3_Cpu info = None
      \/ gf3_MemorySize info = None \/ gf3_GpuMemorySize info = None
      \/ gf3_Timeout info = None \/ gf3_GpuType info = None ->
      GetFuncResource functionName w
      = Panic "invalid memory address or nil pointer dereference" w1
      /\ UpdateFunctionEnv key w
         = Panic "invalid memory address or nil pointer dereference" w1).
Proof.
  intros functionName w1 Hfc3 Hget.
  assert (Hbody : GetFcFunc functionName w = Ret (Some (Fc3Body info)) w1).
  { unfold GetFcFunc. rewrite Hfc3. unfold bind, emit, modify, on_client.
    simpl. now rewrite Hget. }
  split.
  - intros image cpu memorySize gpuMemorySize timeout gpuType Hi Hc Hm Hg Ht Hy.
    unfold GetFuncResource. rewrite (bind_Ret _ _ _ _ _ Hbody).
    now rewrite Hi, Hc, Hm, Hg, Ht, Hy.
  - intros Hnil.
    assert (Hp : GetFuncResource functionName w
                 = Panic "invalid memory address or nil pointer dereference" w1).
    { unfold GetFuncResource. rewrite (bind_Ret _ _ _ _ _ Hbody).
      unfold bind, deref, ret, panic.
      destruct (gf3_Image info), (gf3_Cpu info), (gf3_MemorySize info),
        (gf3_GpuMemorySize info), (gf3_Timeout info), (gf3_GpuType info);
        try reflexivity.
      destruct Hnil as [H|[H|[H|[H|[H|H]]]]]; discriminate H. }
    split; [exact Hp |].
    unfold UpdateFunctionEnv. fold functionName.
    now rewrite (bind_Panic _ _ _ _ _ Hp).
Qed.

(** ** A nil resource in the batch *)

(** When the range of [UpdateFunctionResource] comes to a key whose
    resource pointer is nil, the call panics: the updates of the entries
    before it have been sent and stay, and the entries after it are never
    sent. *)
Theorem UpdateFunctionResource_nil_pointer resources before key rest w :
  range (option FuncResource) resources
  = ((pointer <$> before) ++ (key, None) :: rest)%list ->
  exists w',
    UpdateFunctionResource resources w
    = Panic "invalid memory address or nil pointer dereference" w'
    /\ trace w' = (rev (update_event <$> before) ++ trace w)%list
    /\ fcClient w' = snd (sendUpdates before (fcClient w)).
Proof.
  intros Hrange. unfold UpdateFunctionResource. rewrite Hrange.
  clear Hrange.
  generalize (@nil string) at 1 as success.
  generalize (@nil string) at 1 as fail.
  generalize (@nil string) as errs.
  revert w. induction before as [|[k r] before IH]; intros w errs fail success.
  - exists w. simpl. now repeat split.
  - simpl. unfold bind at 1 2 3. simpl. unfold on_client. simpl.
    fold (updateCall (GetFunctionName k) (resourceRequest r)).
    destruct (updateCall _ _ (fcClient w)) as [answer b1] eqn:Ecall.
    cbv beta iota zeta.
    destruct answer as [e|].
    + destruct (IH (with_fcClient b1 (with_trace (update_event (k, r)) w))
                  (errs ++ [Error e])%list (fail ++ [GetFunctionName k])%list
                  success) as (w' & Hrun & Htr & Hb).
      exists w'. simpl in *.
      destruct (sendUpdates before b1) as [answers b2]. simpl in *.
      split; [exact Hrun | split; [| exact Hb]].
      etransitivity; [exact Htr |]. now rewrite <- app_assoc.
    + destruct (IH (with_fcClient b1 (with_trace (update_event (k, r)) w))
                  errs fail (success ++ [k])%list) as (w' & Hrun & Htr & Hb).
      exists w'. simpl in *.
      destruct (sendUpdates before b1) as [answers b2]. simpl in *.
      split; [exact Hrun | split; [| exact Hb]].
      etransitivity; [exact Htr |]. now rewrite <- app_assoc.
Qed.

(** ** One key at a time *)

Lemma getEndpointFromDb_other key key' w :
  key <> key' ->
  endpoints (final (getEndpointFromDb key w)) !! key' = endpoints w !! key'.
Proof.
  intros Hne.
  destruct (getEndpointFromDb key w) as [e w'|msg w'] eqn:H.
  all: run_unfold H; repeat run_step H.
  all: injection H as <- <-; simpl; try reflexivity.
  now apply lookup_insert_ne.
Qed.

Lemma createFunc_other key key' sdModel env0 w :
  key <> key' ->
  endpoints (final (createFunc key sdModel env0 w)) !! key'
  = endpoints w !! key'.
Proof.
  intros Hne.
  destruct (createFunc_failure key sdModel env0 w)
    as (_ & _ & Hfail).
  destruct (createFunc key sdModel env0 w) as [e w'|msg w'] eqn:H; simpl in *.
  - destruct (decide (e = "")) as [->|He].
    + destruct Hfail as (Hend & _); [now intros ? ? [= <- <-] |].
      now rewrite Hend.
    + destruct (createFunc_success _ _ _ _ _ _ H He) as (Hend & _).
      rewrite Hend. now apply lookup_insert_ne.
  - destruct Hfail as (Hend & _); [intros ? ? [=] |]. now rewrite Hend.
Qed.

Lemma GetEndpoint_loop_other reTry key key' sdModel w :
  key <> key' ->
  endpoints (final (GetEndpoint_loop reTry key sdModel w)) !! key'
  = endpoints w !! key'.
Proof.
  intros Hne. revert w. induction reTry as [|reTry IH]; intros w.
  - reflexivity.
  - cbn [GetEndpoint_loop]. rewrite final_bind.
    pose proof (getEndpointFromCache_final key w) as Hc.
    destruct (getEndpointFromCache key w) as [e1 w1|msg w1]; simpl in Hc;
      subst w1; [| reflexivity].
    destruct (decide (e1 <> "")); [reflexivity |].
    rewrite final_bind.
    pose proof (getEndpointFromDb_other key key' w Hne) as Hd.
    destruct (getEndpointFromDb key w) as [e2 w2|msg w2]; simpl in Hd;
      [| exact Hd].
    destruct (decide (e2 <> "")); [exact Hd |].
    rewrite final_bind, (getEnv_envAt sdModel w2), final_bind.
    pose proof (createFunc_other key key' sdModel (envAt sdModel w2) w2 Hne)
      as Hp.
    destruct (createFunc key sdModel (envAt sdModel w2) w2) as [e3 w3|msg w3];
      simpl in Hp; [| now rewrite Hp].
    destruct (decide (e3 <> "")); [simpl; now rewrite Hp |].
    rewrite final_bind. simpl. rewrite IH. simpl. now rewrite Hp.
Qed.

(** Whatever happens, [GetEndpoint] writes the cache under its own lookup
    key only: the binding of every other key is after the call what it was
    before. *)
Theorem GetEndpoint_writes_own_key sdModel key' w :
  endpointKey sdModel <> key' ->
  endpoints (final (GetEndpoint sdModel w)) !! key' = endpoints w !! key'.
Proof. apply GetEndpoint_loop_other. Qed.

(** ** Function names *)

Lemma rejected_elem entries answers name msg :
  (name, msg) ∈ rejected entries answers ->
  exists i key resource e,
    entries !! i = Some (key, resource)
    /\ answers !! i = Some (Some e)
    /\ name = GetFunctionName key /\ msg = Error e.
Proof.
  revert answers. induction entries as [|[key0 resource0] rest IH];
    intros [|[e|] answers]; simpl; intros Hin; try (now inversion Hin).
  - apply elem_of_cons in Hin as [[= -> ->]|Hin].
    + now exists 0%nat, key0, resource0, e.
    + destruct (IH _ Hin) as (i & k & r & e' & H1 & H2 & H3).
      now exists (Datatypes.S i), k, r, e'.
  - destruct (IH _ Hin) as (i & k & r & e' & H1 & H2 & H3).
    now exists (Datatypes.S i), k, r, e'.
Qed.


(** ** What is stored can be read back *)

Lemma getEndpointFromDb_reads key w data s1 endpoint model :
  ds_Get store key [KModelServiceSdModel cols; KModelServiceEndPoint cols]
    (funcStore w) = (Ok data, s1) ->
  data !! KModelServiceEndPoint cols = Some (VString endpoint) ->
  data !! KModelServiceSdModel cols = Some (VString model) ->
  getEndpointFromDb key w
  = Ret endpoint (with_endpoint key [endpoint; model]
                    (with_funcStore s1 (with_trace (EvStoreGet key) w))).
Proof.
  intros Hget He Hm.
  unfold getEndpointFromDb, bind, emit, modify, on_store. simpl.
  rewrite Hget.
  assert (Hsize : bool_decide (0 < size data)%nat = true).
  { apply bool_decide_eq_true_2.
    destruct (decide (size data = 0%nat)) as [Hz|Hz]; [| lia].
    apply map_size_empty_inv in Hz. subst data.
    rewrite lookup_empty in He. discriminate He. }
  rewrite Hsize, He, Hm. reflexivity.
Qed.

(** When the columns have different names, a [createFunc] that returns an
    endpoint has sent the store one row, under its key, whose key, endpoint
    and model columns read as what the cache now holds and whose function
    name is the one derived from the key; and a [getEndpointFromDb] to
    which the store returns these columns of the row returns the endpoint
    and caches the same pair. *)
Theorem createFunc_stores_readable_binding key sdModel env0 w endpoint w' :
  NoDup [KModelServiceKey cols; KModelServiceSdModel cols;
         KModelServiceFunctionName cols; KModelServiceEndPoint cols;
         KModelServiceCreateTime cols; KModelServiceLastModifyTime cols] ->
  createFunc key sdModel env0 w = Ret endpoint w' ->
  endpoint <> "" ->
  exists data rest,
    trace w' = EvStorePut key data :: rest
    /\ store_puts rest = store_puts (trace w)
    /\ funcStore w' = snd (ds_Put store key data (funcStore w))
    /\ reads_binding data key endpoint sdModel
    /\ data !! KModelServiceFunctionName cols
       = Some (VString (GetFunctionName key))
    /\ endpoints w' !! key = Some [endpoint; sdModel]
    /\ forall w2 data2 s2,
         ds_Get store key
           [KModelServiceSdModel cols; KModelServiceEndPoint cols]
           (funcStore w2) = (Ok data2, s2) ->
         data2 !! KModelServiceEndPoint cols
         = data !! KModelServiceEndPoint cols ->
         data2 !! KModelServiceSdModel cols
         = data !! KModelServiceSdModel cols ->
         getEndpointFromDb key w2
         = Ret endpoint
             (with_endpoint key [endpoint; sdModel]
                (with_funcStore s2 (with_trace (EvStoreGet key) w2))).
Proof.
  intros Hcols H Hne.
  destruct (createFunc_success _ _ _ _ _ _ H Hne)
    as (Hend & _ & _ & Hstore & Htr).
  rewrite !NoDup_cons, !not_elem_of_cons in Hcols.
  destruct Hcols as ((Hks & Hkf & Hke & Hkc & Hkm & _)
                     & (Hsf & Hse & Hsc & Hsm & _)
                     & (Hfe & Hfc & Hfm & _)
                     & (Hec & Hem & _) & (Hcm & _) & _).
  set (data := binding key (GetFunctionName key) sdModel endpoint
                 (clock w / 1000) (clock w / 1000)) in *.
  assert (Hk : data !! KModelServiceKey cols = Some (VString key)).
  { unfold data, binding.
    repeat (rewrite lookup_insert_ne by congruence). apply lookup_insert_eq. }
  assert (He : data !! KModelServiceEndPoint cols = Some (VString endpoint)).
  { unfold data, binding.
    repeat (rewrite lookup_insert_ne by congruence). apply lookup_insert_eq. }
  assert (Hm : data !! KModelServiceSdModel cols = Some (VString sdModel)).
  { unfold data, binding.
    repeat (rewrite lookup_insert_ne by congruence).
    apply lookup_insert_eq. }
  assert (Hf : data !! KModelServiceFunctionName cols
               = Some (VString (GetFunctionName key))).
  { unfold data, binding.
    repeat (rewrite lookup_insert_ne by congruence).
    apply lookup_insert_eq. }
  exists data, (EvCreateTrigger (GetFunctionName key)
                :: EvCreateFunction (GetFunctionName key)
                :: (if isFc3 then [EvGetFunction (config.ServerName ConfigGlobal)]
                    else []) ++ trace w)%list.
  split; [exact Htr |].
  split; [unfold store_puts; simpl; now destruct isFc3 |].
  split; [exact Hstore |].
  split; [now repeat split |].
  split; [exact Hf |].
  split; [rewrite Hend; apply lookup_insert_eq |].
  intros w2 data2 s2 Hget He2 Hm2.
  apply getEndpointFromDb_reads with data2; [exact Hget | congruence | congruence].
Qed.

End FuncManager.

(** * Properties of the configuration *)

Section ConfigFacts.

Import configfile.

Context {float32 : Type}.
Variable Getenv : string -> string.
Variable Atoi : string -> result Z.
Variable ParseBool : string -> result bool.

Local Abbreviation Config := (configfile.Config float32).

Lemma default_string_nonempty old d : d <> "" -> default_string old d <> "".
Proof. unfold default_string. now destruct (decide (old = "")). Qed.

Lemma default_string_idem old d :
  default_string (default_string old d) d = default_string old d.
Proof.
  unfold default_string. destruct (decide (old = "")) as [->|Hne].
  - now destruct (decide (d = "")).
  - now destruct (decide (old = "")).
Qed.

Lemma default_int_idem old d : default_int (default_int old d) d = default_int old d.
Proof.
  unfold default_int. destruct (decide (old = 0)) as [->|Hne].
  - now destruct (decide (d = 0)).
  - now destruct (decide (old = 0)).
Qed.


Lemma cover_empty old : cover "" old = old.
Proof. reflexivity. Qed.

(** With no variable set in the environment, [updateFromEnv] keeps every
    member that comes from the file; the cold-start concurrency becomes 10
    and the serial cold start of a model is switched off. *)
Theorem updateFromEnv_without_environment (c : Config) :
  (forall name, Getenv name = "") ->
  yaml (updateFromEnv Getenv Atoi ParseBool c) = yaml c
  /\ ColdStartConcurrencyOf (env (updateFromEnv Getenv Atoi ParseBool c)) = 10
  /\ ModelColdStartSerialOf (env (updateFromEnv Getenv Atoi ParseBool c)) = false.
Proof.
  intros Hnone. unfold updateFromEnv. cbn [yaml env ColdStartConcurrencyOf
    ModelColdStartSerialOf]. rewrite !Hnone. rewrite !cover_empty.
  split; [| split; reflexivity].
  simpl. now destruct (yaml c).
Qed.

(** The environment overrides the object store of the file only as a
    pair: when endpoint and bucket are both set they replace both members,
    and when one of them is missing both members keep the values of the
    file, the one that is set being ignored.  The table store is treated
    alike. *)
Theorem updateFromEnv_pairs (c : Config) :
  let c' := updateFromEnv Getenv Atoi ParseBool c in
  (Getenv OSS_ENDPOINT <> "" -> Getenv OSS_BUCKET <> "" ->
   OssEndpoint (yaml c') = Getenv OSS_ENDPOINT
   /\ Bucket (yaml c') = Getenv OSS_BUCKET)
  /\ (Getenv OSS_ENDPOINT = "" \/ Getenv OSS_BUCKET = "" ->
      OssEndpoint (yaml c') = OssEndpoint (yaml c)
      /\ Bucket (yaml c') = Bucket (yaml c))
  /\ (Getenv OTS_ENDPOINT <> "" -> Getenv OTS_INSTANCE <> "" ->
      OtsEndpoint (yaml c') = Getenv OTS_ENDPOINT
      /\ OtsInstanceName (yaml c') = Getenv OTS_INSTANCE)
  /\ (Getenv OTS_ENDPOINT = "" \/ Getenv OTS_INSTANCE = "" ->
      OtsEndpoint (yaml c') = OtsEndpoint (yaml c)
      /\ OtsInstanceName (yaml c') = OtsInstanceName (yaml c)).
Proof.
  cbv zeta. unfold updateFromEnv.
  cbn [yaml OssEndpoint Bucket OtsEndpoint OtsInstanceName].
  split; [| split; [| split]].
  - intros H1 H2.
    now rewrite (bool_decide_eq_true_2 _ H1), (bool_decide_eq_true_2 _ H2).
  - intros [H|H]; rewrite H; simpl; [now split |].
    rewrite andb_false_r. now split.
  - intros H1 H2.
    now rewrite (bool_decide_eq_true_2 _ H1), (bool_decide_eq_true_2 _ H2).
  - intros [H|H]; rewrite H; simpl; [now split |].
    rewrite andb_false_r. now split.
Qed.

Lemma existsb_empty_false (vals : list string) :
  existsb (fun val => bool_decide (val = "")) vals = false ->
  Forall (fun val => val <> "") vals.
Proof.
  induction vals as [|v vals IH]; simpl; intros H; constructor.
  - apply orb_false_iff in H as [H _]. now apply bool_decide_eq_false_1 in H.
  - apply IH. now apply orb_false_iff in H as [_ H].
Qed.


(** An [InitConfig] whose file loads fails when one of the five required
    variables of the environment is empty, and then leaves [ConfigGlobal]
    as it was; but the failure "proxy need set downstream" comes after the
    assignment, so it replaces [ConfigGlobal] although the call fails. *)
Theorem InitConfig_failures configYaml global :
  let result := InitConfig Getenv Atoi ParseBool (Ok configYaml) global in
  (Getenv ACCOUNT_ID = "" \/ Getenv ACCESS_KEY_ID = ""
   \/ Getenv ACCESS_KEY_SECRET = "" \/ Getenv REGION = ""
   \/ Getenv SERVICE_NAME = "" ->
   fst result = global /\ snd result <> None)
  /\ (snd result = Some (errors_New "proxy need set downstream") ->
      exists c : Config,
        fst result = Some c
        /\ GetFlexMode c = config.MultiFunc
        /\ ServerName (yaml c) = PROXY
        /\ Downstream (yaml c) = "").
Proof.
  cbv zeta. unfold InitConfig. cbv zeta.
  cbn [AccountId AccessKeyId AccessKeySecret Region ServiceName].
  split.
  - intros Hmissing.
    assert (Hex : existsb (fun val => bool_decide (val = ""))
                    [Getenv ACCOUNT_ID; Getenv ACCESS_KEY_ID;
                     Getenv ACCESS_KEY_SECRET; Getenv REGION;
                     Getenv SERVICE_NAME] = true).
    { apply existsb_exists.
      destruct Hmissing as [H|[H|[H|[H|H]]]]; exists ""; rewrite <- H at 1;
        (split; [simpl; tauto | now apply bool_decide_eq_true_2]). }
    rewrite Hex. simpl. split; [reflexivity | discriminate].
  - destruct (existsb _ _); [simpl; discriminate |].
    match goal with
    | |- context [updateFromEnv _ _ _ ?c0] =>
        set (c := updateFromEnv Getenv Atoi ParseBool c0)
    end.
    destruct (bool_decide (GetFlexMode c = config.MultiFunc)
              && bool_decide (ServerName (yaml c) = PROXY)
              && bool_decide (Downstream (yaml c) = "")) eqn:Hproxy;
      simpl; [| discriminate].
    intros _. exists c.
    apply andb_true_iff in Hproxy as [Hproxy Hd].
    apply andb_true_iff in Hproxy as [Hm Hp].
    apply bool_decide_eq_true_1 in Hm, Hp, Hd. now repeat split.
Qed.

Lemma Split_colon_length s : length (Split_colon s) = Datatypes.S (colons s).
Proof.
  induction s as [|c rest IH]; simpl; [reflexivity |].
  destruct (Ascii.eqb c colon); simpl; [now rewrite IH |].
  destruct (Split_colon rest) as [|piece pieces]; [discriminate IH |].
  exact IH.
Qed.

Lemma Split_colon_whole s : colons s = 0%nat -> Split_colon s = [s].
Proof.
  induction s as [|c rest IH]; simpl; [reflexivity |].
  destruct (Ascii.eqb c colon); [discriminate |].
  intros H. now rewrite (IH H).
Qed.

Lemma Split_colon_app a rest :
  colons a = 0%nat ->
  Split_colon (a ++ String colon rest) = a :: Split_colon rest.
Proof.
  induction a as [|c a IH]; simpl.
  - intros _. reflexivity.
  - destruct (Ascii.eqb c colon); [discriminate |].
    intros H. now rewrite (IH H).
Qed.

Lemma Split_colon_pieces s :
  Forall (fun piece => colons piece = 0%nat) (Split_colon s).
Proof.
  induction s as [|c rest IH]; simpl.
  - now repeat constructor.
  - destruct (Ascii.eqb c colon) eqn:Ec; [now constructor |].
    destruct (Split_colon rest) as [|piece pieces]; [now repeat constructor; simpl; rewrite Ec |].
    inversion IH; subst. constructor; [| assumption].
    simpl. now rewrite Ec.
Qed.

(** [GetSDPort] returns what follows the second colon of a prefix with
    exactly two colons, as the port of "scheme://host:port" is; for a
    prefix with fewer or more colons (no port, an IPv6 host) it returns the
    empty string; and what it returns never holds a colon. *)
Theorem GetSDPort_spec (c : Config) :
  (forall scheme host port,
     colons scheme = 0%nat -> colons host = 0%nat -> colons port = 0%nat ->
     SdUrlPrefix (yaml c)
     = scheme ++ String colon (host ++ String colon port) ->
     GetSDPort c = port)
  /\ (colons (SdUrlPrefix (yaml c)) <> 2%nat -> GetSDPort c = "")
  /\ colons (GetSDPort c) = 0%nat.
Proof.
  unfold GetSDPort. cbv zeta. split; [| split].
  - intros scheme host port Hs Hh Hp ->.
    rewrite (Split_colon_app _ _ Hs), (Split_colon_app _ _ Hh),
      (Split_colon_whole _ Hp).
    reflexivity.
  - intros Hne. rewrite Split_colon_length.
    destruct (decide (Datatypes.S (colons (SdUrlPrefix (yaml c))) = 3%nat));
      [lia | reflexivity].
  - destruct (decide (length (Split_colon (SdUrlPrefix (yaml c))) = 3%nat));
      [| reflexivity].
    pose proof (Split_colon_pieces (SdUrlPrefix (yaml c))) as Hall.
    destruct (Split_colon (SdUrlPrefix (yaml c)) !! 2%nat) as [piece|] eqn:E;
      [| reflexivity].
    simpl. rewrite Forall_lookup in Hall. exact (Hall _ _ E).
Qed.

End ConfigFacts.
(** * Scenarios *)

Lemma GetEndpoint_exhausted_witness :
  exists w',
    GetEndpoint scenario_columns mem_store (scripted rejecting)
      (scenario_config "service" "multiFunc") id pretty "modelX"
      (new_FuncManager ∅ 0%nat 0)
    = Ret ("", Some (errors_New "not get sd endpoint")) w'
    /\ clock w' = 20.
Proof.
  eexists. split.
  - eapply GetEndpoint_exhausted; reflexivity.
  - reflexivity.
Defined.



Lemma GetEndpoint_default_key_witness :
  endpointKey (scenario_config "service" "singleFunc") "modelX" = "default"
  /\ endpointKey (scenario_config "service" "multiFunc") "" = "default"
  /\ endpointKey (scenario_config "service" "multiFunc") "modelX" = "modelX".
Proof.
  split; [| split; [| reflexivity]].
  - apply (GetEndpoint_default_key scenario_columns mem_store
             (scripted healthy) (scenario_config "service" "singleFunc")
             id pretty "modelX" (new_FuncManager ∅ 0%nat 0)).
    left. reflexivity.
  - apply (GetEndpoint_default_key scenario_columns mem_store
             (scripted healthy) (scenario_config "service" "multiFunc")
             id pretty "" (new_FuncManager ∅ 0%nat 0)).
    right. reflexivity.
Defined.

(** C9, as stated, fails after a start-up that loads the two rows: with no
    call resolved yet (the trace holds the listing only) the nil pointer is
    answered with the endpoint of "a", not with the empty string; and "m",
    a non-empty key that is present in the cache, is answered with the
    endpoint of "a" too, not with its own cached endpoint. *)
Lemma GetLastInvokeEndpoint_after_load :
  exists w,
    InitFuncManager scenario_columns mem_store (fun V => map_to_list) None
      (new_FuncManager (float32 := unit) two_rows 0%nat 0)
    = Ret None w
    /\ trace w = [EvStoreListAll]
    /\ endpoints w !! "m" = Some [""; "m"]
    /\ GetLastInvokeEndpoint None w = Ret "http://a.example" w
    /\ GetLastInvokeEndpoint (Some "m") w = Ret "http://a.example" w.
Proof. eexists. repeat split; reflexivity. Defined.

Lemma GetLastInvokeEndpoint_spec_witness :
  GetLastInvokeEndpoint (Some "a")
    (with_endpoint "a" ["http://a.example"; "a"]
       (new_FuncManager (float32 := unit) (∅ : gmap string row) 0%nat 0))
  = Ret "http://a.example"
      (with_lastInvokeEndpoint "http://a.example"
         (with_endpoint "a" ["http://a.example"; "a"]
            (new_FuncManager (∅ : gmap string row) 0%nat 0))).
Proof.
  refine (proj1 (proj2 (GetLastInvokeEndpoint_spec scenario_columns mem_store
            (scripted healthy) (scenario_config "service" "multiFunc")
            id pretty (Some "a")
            (with_endpoint "a" ["http://a.example"; "a"]
               (new_FuncManager (∅ : gmap string row) 0%nat 0)) _))
            "a" "http://a.example" ["a"] eq_refl _ eq_refl _).
  - intros key val. simpl. rewrite lookup_insert.
    destruct (decide ("a" = key)); [intros [= <-]; reflexivity |].
    rewrite lookup_empty. discriminate.
  - discriminate.
  - discriminate.
Defined.

(** C4, as stated, fails for the newer generation when the first read of
    the reference function fails and the second succeeds: the attempt is
    made again (the reference function is read twice) and the call returns
    the endpoint that the second attempt provisioned. *)
Lemma GetEndpoint_retried_after_unreadable_reference :
  exists w',
    GetEndpoint scenario_columns mem_store (scripted reference_recovers)
      (scenario_config "" "multiFunc") id pretty "modelX"
      (new_FuncManager ∅ 0%nat 0)
    = Ret ("http://sd.example", None) w'
    /\ function_reads "control" (trace w') = 2%nat
    /\ provisions (trace w') = 1%nat.
Proof. eexists. repeat split; reflexivity. Defined.

Lemma GetEndpoint_retries_unreadable_reference_witness :
  exists w',
    createFunc scenario_columns mem_store (scripted reference_recovers)
      (scenario_config "" "multiFunc") id pretty "modelX" "modelX"
      (envAt (scenario_config "" "multiFunc") pretty "modelX"
         (with_trace (EvStoreGet "modelX") (new_FuncManager (∅ : gmap string row) 0%nat 0)))
      (with_trace (EvStoreGet "modelX") (new_FuncManager (∅ : gmap string row) 0%nat 0))
    = Ret "" w'
    /\ provisions (trace w') = 0%nat.
Proof.
  pose proof (GetEndpoint_retries_unreadable_reference scenario_columns
                mem_store (scripted reference_recovers)
                (scenario_config "" "multiFunc") id pretty "modelX"
                (new_FuncManager (∅ : gmap string row) 0%nat 0) (new_FuncManager (∅ : gmap string row) 0%nat 0)
                (with_trace (EvStoreGet "modelX") (new_FuncManager (∅ : gmap string row) 0%nat 0))
                (errors_New "timeout") 1%nat) as H.
  destruct H as (_ & H & _);
    [reflexivity | reflexivity | reflexivity | reflexivity |].
  eexists. split; [exact H | reflexivity].
Defined.

Lemma createFunc_panics_on_empty_address_witness :
  exists w',
    GetEndpoint scenario_columns mem_store (scripted urlless)
      (scenario_config "service" "multiFunc") id pretty "modelX"
      (new_FuncManager ∅ 0%nat 0)
    = Panic "invalid memory address or nil pointer dereference" w'.
Proof.
  eexists.
  eapply (createFunc_panics_on_empty_address scenario_columns mem_store
            (scripted urlless) (scenario_config "service" "multiFunc")
            id pretty "modelX" "modelX");
    reflexivity.
Defined.

(** C6, as stated, fails on the batch of "A" and "B" when the update of
    "B" is rejected: the failure list holds the function name of "B", and
    the key "B" is in neither list. *)
Lemma UpdateFunctionResource_reports_function_name :
  exists w',
    UpdateFunctionResource (scripted rejects_B)
      (scenario_config "service" "multiFunc") id (fun V => map_to_list) batch
      (new_FuncManager (∅ : gmap string row) 0%nat 0)
    = Ret (["A"], ["sd_B"], ["invalid spec"]) w'
    /\ ("B" ∉ ["A"])
    /\ ("B" ∉ ["sd_B"]).
Proof.
  eexists. split; [vm_compute; reflexivity |].
  split; intros H; apply list_elem_of_singleton in H; discriminate H.
Defined.

Lemma UpdateFunctionResource_batch_witness :
  exists w',
    UpdateFunctionResource (scripted rejects_B)
      (scenario_config "service" "multiFunc") id (fun V => map_to_list) batch
      (new_FuncManager (∅ : gmap string row) 0%nat 0)
    = Ret (["A"], ["sd_B"], ["invalid spec"]) w'
    /\ trace w'
       = [EvUpdateFunction "sd_B" (resourceRequest scenario_resource);
          EvUpdateFunction "sd_A" (resourceRequest scenario_resource)].
Proof.
  destruct (UpdateFunctionResource_batch (scripted rejects_B)
              (scenario_config "service" "multiFunc") id
              (fun V => map_to_list) batch
              [("A", scenario_resource); ("B", scenario_resource)]
              (new_FuncManager (∅ : gmap string row) 0%nat 0))
    as (w' & H1 & H2 & _).
  - intros V m. reflexivity.
  - reflexivity.
  - exists w'. split; [exact H1 | exact H2].
Defined.


(** ** Scenarios of the further properties *)

Lemma GetEndpoint_from_store_witness :
  exists w',
    GetEndpoint scenario_columns mem_store (scripted rejecting)
      (scenario_config "service" "multiFunc") id pretty "modelX"
      (new_FuncManager stored_modelX 0%nat 0)
    = Ret ("http://stored.example", None) w'
    /\ fcClient w' = 0%nat
    /\ trace w' = [EvStoreGet "modelX"].
Proof.
  eexists. split.
  - eapply (GetEndpoint_from_store scenario_columns mem_store
              (scripted rejecting) (scenario_config "service" "multiFunc")
              id pretty "modelX" (new_FuncManager stored_modelX 0%nat 0)
              (scenario_row "modelX" "modelX" "http://stored.example")
              stored_modelX "http://stored.example" "modelX");
      [reflexivity | reflexivity | reflexivity | reflexivity | discriminate].
  - split; reflexivity.
Defined.

Lemma loadFunc_never_evicts_witness :
  is_Some
    (endpoints
       (final (loadFunc scenario_columns mem_store (fun V => map_to_list)
                 (with_endpoint "old" ["http://old.example"; "old"]
                    (new_FuncManager (float32 := unit) (B := nat)
                       two_rows 0%nat 0))))
     !! "old").
Proof.
  refine (proj1 (loadFunc_never_evicts scenario_columns mem_store
                   (fun V => map_to_list)
                   (with_endpoint "old" ["http://old.example"; "old"]
                      (new_FuncManager two_rows 0%nat 0)) _) "old" _).
  - intros V m. reflexivity.
  - simpl. rewrite lookup_insert_eq. eauto.
Defined.

Lemma loadFunc_serves_listed_witness :
  exists k' data' endpoint sdModel,
    two_rows !! k' = Some data'
    /\ reads_binding scenario_columns data' "a" endpoint sdModel.
Proof.
  destruct (loadFunc_serves_listed scenario_columns mem_store
              (scripted healthy) (scenario_config "service" "multiFunc")
              id pretty (fun V => map_to_list)
              (new_FuncManager two_rows 0%nat 0)
              (final (loadFunc scenario_columns mem_store
                        (fun V => map_to_list)
                        (new_FuncManager two_rows 0%nat 0)))
              "a" (scenario_row "a" "a" "http://a.example") "a")
    as (k' & data' & endpoint & sdModel & H1 & H2 & _).
  - intros V m. reflexivity.
  - reflexivity.
  - reflexivity.
  - reflexivity.
  - exists k', data', endpoint, sdModel. split; [exact H1 | exact H2].
Defined.

Lemma createFc3Function_inherits_witness :
  exists input,
    getCreateFuncRequestFc3 (scripted serving) (scenario_config "" "multiFunc")
      "sd_modelX" ∅ (new_FuncManager (∅ : gmap string row) 0%nat 0)
    = Ret (Some input)
        (with_fcClient 1%nat
           (with_trace (EvGetFunction "control")
              (new_FuncManager (∅ : gmap string row) 0%nat 0)))
    /\ ci_Role input = Some "role".
Proof.
  destruct (createFc3Function_inherits (scripted serving)
              (scenario_config "" "multiFunc") "sd_modelX" ∅
              (new_FuncManager (∅ : gmap string row) 0%nat 0)
              reference_function 1%nat)
    as (input & H1 & H2 & _); [reflexivity | reflexivity |].
  exists input. split; [exact H1 | exact H2].
Defined.

Lemma UpdateFunctionEnv_missing_function_witness :
  UpdateFunctionEnv (scripted rejecting) (scenario_config "service" "multiFunc")
    id pretty "modelX" (new_FuncManager (∅ : gmap string row) 0%nat 0)
  = Ret None
      (with_fcClient 1%nat
         (with_trace (EvGetFunction "sd_modelX")
            (new_FuncManager (∅ : gmap string row) 0%nat 0))).
Proof.
  apply (UpdateFunctionEnv_missing_function (scripted rejecting)
           (scenario_config "service" "multiFunc") id pretty "modelX").
  reflexivity.
Defined.

Lemma UpdateFunctionEnv_refreshes_witness :
  exists req env1,
    uf_EnvironmentVariables req = Some env1
    /\ env1 !! config.MODEL_REFRESH_SIGNAL = Some "0"
    /\ UpdateFunctionEnv (scripted serving)
         (scenario_config "service" "multiFunc") id pretty "modelX"
         (new_FuncManager (∅ : gmap string row) 0%nat 0)
       = Ret None
           (with_fcClient 2%nat
              (with_trace (EvUpdateFunction "sd_modelX" req)
                 (with_fcClient 1%nat
                    (with_trace (EvGetFunction "sd_modelX")
                       (new_FuncManager (∅ : gmap string row) 0%nat 0))))).
Proof.
  destruct (UpdateFunctionEnv_refreshes (scripted serving)
              (scenario_config "service" "multiFunc") id pretty "modelX"
              (new_FuncManager (∅ : gmap string row) 0%nat 0)
              scenario_resource
              (with_fcClient 1%nat
                 (with_trace (EvGetFunction "sd_modelX")
                    (new_FuncManager (∅ : gmap string row) 0%nat 0)))
              ∅)
    as (req & env1 & H1 & H2 & _ & _ & _ & _ & _ & _ & Hrun);
    [reflexivity | reflexivity |].
  exists req, env1. split; [exact H1 | split; [exact H2 |]].
  apply (Hrun None 2%nat). reflexivity.
Defined.

Lemma GetFuncResource_needs_every_member_witness :
  UpdateFunctionEnv (scripted gpuless) (scenario_config "" "multiFunc")
    id pretty "modelX" (new_FuncManager (∅ : gmap string row) 0%nat 0)
  = Panic "invalid memory address or nil pointer dereference"
      (with_fcClient 1%nat
         (with_trace (EvGetFunction "sd_modelX")
            (new_FuncManager (∅ : gmap string row) 0%nat 0))).
Proof.
  refine (proj2 (proj2 (GetFuncResource_needs_every_member (scripted gpuless)
            (scenario_config "" "multiFunc") id pretty "modelX"
            (new_FuncManager (∅ : gmap string row) 0%nat 0)
            cpu_function 1%nat eq_refl eq_refl) _)).
  right. right. right. left. reflexivity.
Defined.

Lemma UpdateFunctionResource_nil_pointer_witness :
  exists w',
    UpdateFunctionResource (scripted healthy)
      (scenario_config "service" "multiFunc") id (fun V => map_to_list)
      batch_with_nil (new_FuncManager (∅ : gmap string row) 0%nat 0)
    = Panic "invalid memory address or nil pointer dereference" w'
    /\ trace w'
       = [EvUpdateFunction "sd_A" (resourceRequest scenario_resource)].
Proof.
  destruct (UpdateFunctionResource_nil_pointer (scripted healthy)
              (scenario_config "service" "multiFunc") id
              (fun V => map_to_list) batch_with_nil
              [("A", scenario_resource)] "B" []
              (new_FuncManager (∅ : gmap string row) 0%nat 0))
    as (w' & H1 & H2 & _); [reflexivity |].
  exists w'. split; [exact H1 | exact H2].
Defined.

Lemma GetEndpoint_writes_own_key_witness :
  endpoints
    (final (GetEndpoint scenario_columns mem_store (scripted healthy)
              (scenario_config "service" "multiFunc") id pretty "modelX"
              (with_endpoint "other" ["http://other.example"; "other"]
                 (new_FuncManager (∅ : gmap string row) 0%nat 0))))
  !! "other"
  = Some ["http://other.example"; "other"].
Proof.
  rewrite (GetEndpoint_writes_own_key scenario_columns mem_store
             (scripted healthy) (scenario_config "service" "multiFunc")
             id pretty "modelX" "other").
  - reflexivity.
  - discriminate.
Defined.


Lemma updateFromEnv_without_environment_witness :
  configfile.FlexMode
    (configfile.yaml
       (configfile.updateFromEnv (fun _ => "") (fun _ => Ok 0)
          (fun _ => Ok false)
          {| configfile.yaml := scenario_yaml;
             configfile.env :=
               {| configfile.AccountId := "account";
                  configfile.AccessKeyId := "key";
                  configfile.AccessKeySecret := "secret";
                  configfile.AccessKeyToken := "";
                  configfile.Region := "cn-hangzhou";
                  configfile.ServiceName := "service";
                  configfile.ColdStartConcurrencyOf := 0;
                  configfile.ModelColdStartSerialOf := false |} |}))
  = "".
Proof.
  rewrite (proj1 (updateFromEnv_without_environment (fun _ => "")
                    (fun _ => Ok 0) (fun _ => Ok false) _
                    (fun name => eq_refl))).
  reflexivity.
Defined.


Lemma createFunc_stores_readable_binding_witness :
  exists data,
    reads_binding scenario_columns data "modelX" "http://sd.example" "modelX"
    /\ data !! "functionName" = Some (VString "sd_modelX").
Proof.
  destruct (createFunc_stores_readable_binding scenario_columns mem_store
              (scripted healthy) (scenario_config "service" "multiFunc")
              id pretty "modelX" "modelX" ∅
              (new_FuncManager (∅ : gmap string row) 0%nat 0)
              "http://sd.example"
              (final (createFunc scenario_columns mem_store (scripted healthy)
                        (scenario_config "service" "multiFunc") id pretty
                        "modelX" "modelX" ∅
                        (new_FuncManager (∅ : gmap string row) 0%nat 0))))
    as (data & rest & _ & _ & _ & Hb & Hf & _).
  - apply (bool_decide_unpack _). reflexivity.
  - reflexivity.
  - discriminate.
  - exists data. split; [exact Hb | exact Hf].
Defined.
